(** * Fake-news detection demo: the voting core of [main.py]

    The script loads a TF-IDF vectorizer and four pickled classifiers,
    asks each classifier for a 0/1 label (and a confidence when the model
    can estimate probabilities), and reports the majority label.

    This development embeds the two helper functions of the script,
    [get_prediction] and [majority_vote], and the body of the page
    (the text area, the two buttons and the output column), and proves
    the statements the specification makes about them.

    Modelling conventions.
    - Python [int] is [Z]; counts returned by [list.count] are [Z] too.
    - A [dict] is an association list in insertion order, as CPython
      keeps it; [dict_set] overwrites in place or appends.
    - Python [str] is a list of Unicode code points.
    - Class probabilities are finite binary64 numbers, hence rationals;
      [np.max] and [float] select and convert without rounding, so the
      numbers are carried as [Q].
    - Exceptions are an explicit [result]; calls that have an effect on
      the page or on the loaded artifacts are logged in a trace. *)

From Stdlib Require Import ZArith QArith Qminmax List String Bool Lia Lqa.
From Stdlib Require Import Permutation.
Import ListNotations.

Set Implicit Arguments.

(* ================================================================= *)
(** ** Exceptions and the state-and-exception monad *)

Inductive exn : Type :=
| IndexError      (* [a[0]] on an empty array *)
| ValueError      (* [np.max] of an empty array *)
| KeyError        (* [d[k]] for an absent key *)
| AttributeError  (* method looked up on an object that lacks it *)
| SystemError     (* a reference to no object; CPython never produces one *)
| RerunException  (* raised by [st.rerun()] to abandon the current run *).

Inductive result (A : Type) : Type :=
| Ok (a : A)
| Raise (e : exn).

Arguments Ok {A} a.
Arguments Raise {A} e.

(** A computation reads and writes a state [S]; a raised exception
    keeps the state reached so far and skips the rest. *)
Definition M (S A : Type) : Type := S -> result A * S.

Definition ret {S A} (a : A) : M S A := fun s => (Ok a, s).

Definition raise {S A} (e : exn) : M S A := fun s => (Raise e, s).

Definition bind {S A B} (m : M S A) (k : A -> M S B) : M S B :=
  fun s =>
    match m s with
    | (Ok a, s') => k a s'
    | (Raise e, s') => (Raise e, s')
    end.

Definition lift {S A} (r : result A) : M S A := fun s => (r, s).

Declare Scope py_scope.
Delimit Scope py_scope with py.

Notation "x <- m ;; k" := (bind m (fun x => k))
  (at level 61, m at next level, right associativity) : py_scope.
Notation "' p <- m ;; k" := (bind m (fun x => match x with p => k end))
  (at level 61, p pattern, m at next level, right associativity) : py_scope.
Notation "m ;;; k" := (bind m (fun _ => k))
  (at level 61, right associativity) : py_scope.

(* ================================================================= *)
(** ** Python builtins used by the script *)

Module Py.

(** *** [list] *)

(** [a.count(x)]: the number of elements equal to [x]. *)
Fixpoint count (x : Z) (a : list Z) : Z :=
  match a with
  | [] => 0
  | y :: a' => ((if y =? x then 1 else 0) + count x a')%Z
  end.

(** [a[0]]. *)
Definition item0 {A} (a : list A) : result A :=
  match a with
  | [] => Raise IndexError
  | x :: _ => Ok x
  end.

(** *** [dict] *)

Definition dict (V : Type) : Type := list (string * V).

Definition values {V} (d : dict V) : list V := map snd d.

Definition keys {V} (d : dict V) : list string := map fst d.

Definition len {V} (d : dict V) : Z := Z.of_nat (List.length d).

(** [d[k] = v]. *)
Fixpoint dict_set {V} (k : string) (v : V) (d : dict V) : dict V :=
  match d with
  | [] => [(k, v)]
  | (k', v') :: d' =>
      if String.eqb k' k then (k', v) :: d' else (k', v') :: dict_set k v d'
  end.

(** [d[k]]. *)
Fixpoint dict_get {V} (k : string) (d : dict V) : result V :=
  match d with
  | [] => Raise KeyError
  | (k', v') :: d' => if String.eqb k' k then Ok v' else dict_get k d'
  end.

(** *** [str] *)

Definition codepoint : Type := N.
Definition str : Type := list codepoint.

(** [c.isspace()], the table of CPython's [_PyUnicode_IsWhitespace]. *)
Definition isspace (c : codepoint) : bool :=
  ((9 <=? c) && (c <=? 13)
   || (28 <=? c) && (c <=? 32)
   || (c =? 133) || (c =? 160) || (c =? 5760)
   || (8192 <=? c) && (c <=? 8202)
   || (c =? 8232) || (c =? 8233) || (c =? 8239) || (c =? 8287)
   || (c =? 12288))%N.

Fixpoint lstrip (s : str) : str :=
  match s with
  | [] => []
  | c :: s' => if isspace c then lstrip s' else s
  end.

Definition rstrip (s : str) : str := rev (lstrip (rev s)).

(** [s.strip()]. *)
Definition strip (s : str) : str := rstrip (lstrip s).

(** Truth value of a string: [not s] holds for the empty string only. *)
Definition truthy (s : str) : bool :=
  match s with
  | [] => false
  | _ :: _ => true
  end.

(** *** Conversions; the arguments are already of the target type. *)

Definition int (x : Z) : Z := x.

Definition float (x : Q) : Q := x.

End Py.

(** [np.max(a)] for a one-dimensional array of finite numbers: the
    largest entry, [ValueError] on an empty array. *)
Module Np.

Definition max (a : list Q) : result Q :=
  match a with
  | [] => Raise ValueError
  | x :: a' => Ok (fold_left Qmax a' x)
  end.

End Np.

(* ================================================================= *)
(** ** [majority_vote] *)

(** <<
    def majority_vote(pred_dict):
        preds = list(pred_dict.values())
        ones = preds.count(1)
        zeros = preds.count(0)
        final = 1 if ones > zeros else 0
        return final, ones, zeros
    >> *)
Definition majority_vote (pred_dict : Py.dict Z) : Z * Z * Z :=
  let preds := Py.values pred_dict in
  let ones := Py.count 1 preds in
  let zeros := Py.count 0 preds in
  let final := if (ones >? zeros)%Z then 1%Z else 0%Z in
  (final, ones, zeros).

(* ================================================================= *)
(** ** [majority_vote] over a store of Python objects

    The same five statements, run against a heap in which the argument
    is a reference to a shared dictionary object and [list(...)] allocates
    a fresh list.  This is the model in which a side effect on the
    caller's objects could be expressed. *)

Module Heap.

Inductive object : Type :=
| Dict (d : Py.dict Z)
| List (a : list Z).

Definition ref : Type := nat.

Definition heap : Type := list object.

Definition load (r : ref) : M heap object :=
  fun h =>
    match nth_error h r with
    | Some o => (Ok o, h)
    | None => (Raise SystemError, h)
    end.

Definition alloc (o : object) : M heap ref :=
  fun h => (Ok (List.length h), h ++ [o]).

(** [list(d.values())]: a new list object. *)
Definition list_of_values (d : ref) : M heap ref :=
  (o <- load d ;;
   match o with
   | Dict kvs => alloc (List (Py.values kvs))
   | List _ => raise AttributeError
   end)%py.

(** [a.count(x)]. *)
Definition list_count (a : ref) (x : Z) : M heap Z :=
  (o <- load a ;;
   match o with
   | List xs => ret (Py.count x xs)
   | Dict _ => raise AttributeError
   end)%py.

Definition majority_vote (pred_dict : ref) : M heap (Z * Z * Z) :=
  (preds <- list_of_values pred_dict ;;
   ones <- list_count preds 1 ;;
   zeros <- list_count preds 0 ;;
   let final := if (ones >? zeros)%Z then 1%Z else 0%Z in
   ret (final, ones, zeros))%py.

End Heap.

(* ================================================================= *)
(** ** The loaded artifacts and the page *)

Section Page.

(** The feature matrix produced by the vectorizer is opaque to the
    script: it is only handed from [transform] to the classifiers. *)
Context {matrix : Type}.

(** A fitted classifier: [predict] returns one label per row of the
    matrix; [predict_proba], when the model has the attribute, returns
    one row of class probabilities per row of the matrix. *)
Record classifier : Type := {
  predict : matrix -> list Z;
  predict_proba : option (matrix -> list (list Q))
}.

Record vectorizer : Type := {
  transform : list Py.str -> matrix
}.

(** What [load_artifacts] returns. *)
Record artifacts : Type := {
  tfidf : vectorizer;
  models : Py.dict classifier
}.

Inductive verdict : Type := REAL | FAKE.

(** Calls on the loaded artifacts and on the page, in program order. *)
Inductive event : Type :=
| Tfidf_transform (docs : list Py.str)
| Model_predict
| Model_predict_proba
| St_subheader (text : string)
| St_text_area (label : string)
| St_button (label : string)
| St_warning (text : string)
| St_info (text : string)
| St_result_card (badge : verdict) (ones zeros : Z)
| St_write (text : string)
| St_markdown (text : string)
| St_model_row (name : string) (result : verdict) (conf : option Q)
| St_caption_checked_at
| St_session_state_clear.

Definition trace : Type := list event.

Definition emit (e : event) : M trace unit := fun t => (Ok tt, t ++ [e]).

(** A computation that only adds to the trace it is given. *)
Definition appends {A} (m : M trace A) : Prop :=
  forall t, exists t', snd (m t) = t ++ t'.

(** The events that are inference: a call of the vectorizer or of a
    classifier. *)
Definition is_inference (e : event) : bool :=
  match e with
  | Tfidf_transform _ | Model_predict | Model_predict_proba => true
  | _ => false
  end.

(** <<
    def get_prediction(model, X):
        pred = model.predict(X)[0]
        conf = None
        if hasattr(model, "predict_proba"):
            proba = model.predict_proba(X)[0]
            conf = float(np.max(proba))
        return int(pred), conf
    >> *)
Definition get_prediction (model : classifier) (X : matrix)
  : M trace (Z * option Q) :=
  (emit Model_predict ;;;
   pred <- lift (Py.item0 (predict model X)) ;;
   conf <- match predict_proba model with
           | Some predict_proba_ =>
               emit Model_predict_proba ;;;
               proba <- lift (Py.item0 (predict_proba_ X)) ;;
               m <- lift (Np.max proba) ;;
               ret (Some (Py.float m))
           | None => ret None
           end ;;
   ret (Py.int pred, conf))%py.

(** <<
    for name, model in models.items():
        pred, conf = get_prediction(model, X)
        model_preds[name] = pred
        model_confs[name] = conf
    >> *)
Fixpoint predict_all (items : list (string * classifier)) (X : matrix)
    (model_preds : Py.dict Z) (model_confs : Py.dict (option Q))
  : M trace (Py.dict Z * Py.dict (option Q)) :=
  match items with
  | [] => ret (model_preds, model_confs)
  | (name, model) :: items' =>
      ('(pred, conf) <- get_prediction model X ;;
       predict_all items' X
         (Py.dict_set name pred model_preds)
         (Py.dict_set name conf model_confs))%py
  end.

Definition verdict_of (label : Z) : verdict :=
  if (label =? 1)%Z then REAL else FAKE.

(** <<
    for name in model_preds:
        pred_val = model_preds[name]
        result = REAL if pred_val == 1 else FAKE
        conf = model_confs[name]
        st.write(...)
    >> *)
Fixpoint write_rows (names : list string)
    (model_preds : Py.dict Z) (model_confs : Py.dict (option Q))
  : M trace unit :=
  match names with
  | [] => ret tt
  | name :: names' =>
      (pred_val <- lift (Py.dict_get name model_preds) ;;
       conf <- lift (Py.dict_get name model_confs) ;;
       emit (St_model_row name (verdict_of pred_val) conf) ;;;
       write_rows names' model_preds model_confs)%py
  end.

(** The body of [if detect_btn:]. *)
Definition detect (art : artifacts) (news_text : Py.str) : M trace unit :=
  if negb (Py.truthy (Py.strip news_text)) then
    emit (St_warning "⚠️ Please paste some news text.")
  else
    (emit (Tfidf_transform [news_text]) ;;;
     let X := transform (tfidf art) [news_text] in
     '(model_preds, model_confs) <- predict_all (models art) X [] [] ;;
     let '(final_pred, ones, zeros) := majority_vote model_preds in
     emit (St_result_card (verdict_of final_pred) ones zeros) ;;;
     emit (St_write EmptyString) ;;;
     emit (St_markdown "### 🧠 Model-wise Predictions") ;;;
     write_rows (Py.keys model_preds) model_preds model_confs ;;;
     emit (St_write EmptyString) ;;;
     emit St_caption_checked_at)%py.

(** One run of the script after the artifacts are loaded: the left
    column with the text area and the two buttons, then the right
    column.  The widget values of this run are the arguments. *)
Definition page (art : artifacts)
    (news_text : Py.str) (detect_btn clear_btn : bool) : M trace unit :=
  (emit (St_subheader "✍️ Paste News Text") ;;;
   emit (St_text_area "Enter full news article/content") ;;;
   emit (St_button "🔍 Detect News") ;;;
   emit (St_button "🧹 Clear") ;;;
   (if clear_btn then
      emit St_session_state_clear ;;; raise RerunException
    else ret tt) ;;;
   emit (St_subheader "📌 Final Output") ;;;
   if detect_btn then detect art news_text
   else emit (St_info "Paste the news content and click **Detect News**."))%py.

End Page.

Arguments classifier matrix : clear implicits.
Arguments vectorizer matrix : clear implicits.
Arguments artifacts matrix : clear implicits.

(* ================================================================= *)
(** ** Vocabulary of the specification *)

(** A label of the input contract. *)
Definition binary (v : Z) : Prop := v = 0%Z \/ v = 1%Z.

Definition binaryb (v : Z) : bool := ((v =? 0) || (v =? 1))%Z.

(** The number of entries of the mapping that carry label [v]. *)
Definition votes_for (v : Z) (d : Py.dict Z) : Z :=
  Z.of_nat (List.length (filter (fun kv => (snd kv =? v)%Z) d)).

Definition final_label (r : Z * Z * Z) : Z := fst (fst r).
Definition ones_of (r : Z * Z * Z) : Z := snd (fst r).
Definition zeros_of (r : Z * Z * Z) : Z := snd r.

(** [x] is a largest entry of [a]. *)
Definition is_max_of (x : Q) (a : list Q) : Prop :=
  In x a /\ forall y, In y a -> y <= x.

(* ================================================================= *)
(** ** Sample data *)

Definition votes_tie : Py.dict Z :=
  [("A", 1); ("B", 1); ("C", 0); ("D", 0)]%string%Z.

Definition votes_real : Py.dict Z :=
  [("A", 1); ("B", 1); ("C", 1); ("D", 0)]%string%Z.

Definition votes_single : Py.dict Z := [("A"%string, 1%Z)].

Definition votes_odd_label : Py.dict Z :=
  [("A", 1); ("B", 7); ("C", 0); ("D", -1); ("E", 1)]%string%Z.

(** A toy feature matrix: the documents themselves. *)
Definition docs : Type := list Py.str.

(** A model without [predict_proba] that labels every document 1. *)
Definition clf_plain : classifier docs :=
  {| predict := fun X => map (fun _ => 1%Z) X;
     predict_proba := None |}.

(** A model with [predict_proba] that leans towards label 0. *)
Definition clf_proba : classifier docs :=
  {| predict := fun X => map (fun _ => 0%Z) X;
     predict_proba := Some (fun X => map (fun _ => [3 # 4; 1 # 4]) X) |}.

Definition toy_artifacts : artifacts docs :=
  {| tfidf := {| transform := fun texts => texts |};
     models := [("Logistic Regression", clf_proba);
                ("Naive Bayes", clf_plain);
                ("SVM", clf_plain);
                ("Model 2", clf_proba)]%string |}.

(** The text [" \t\n"] and the text ["ok"]. *)
Definition blank_text : Py.str := [32; 9; 10]%N.
Definition some_text : Py.str := [111; 107]%N.

Definition toy_heap : Heap.heap :=
  [Heap.List [5%Z]; Heap.Dict votes_tie; Heap.Dict []].

(* ================================================================= *)
(** ** The script from top to bottom

    Lines 1-188 of [main.py] in the order Streamlit runs them: the page
    configuration, the style sheet and the title, [load_artifacts]
    under its [try], the page, and the footer. *)

(** [joblib.load(path)]: the unpickled object, or the text [str(e)]
    of the exception it raised. *)
Inductive loaded (A : Type) : Type :=
| Loaded (a : A)
| Load_failed (message : string).

Arguments Loaded {A} a.
Arguments Load_failed {A} message.

Section Script.

Context {matrix : Type}.

(** The pickle files.  The script takes [tfidf.pkl] for a vectorizer
    and the other four for classifiers without a check, so the two
    kinds of file are told apart by type here. *)
Record disk : Type := {
  read_vectorizer : string -> loaded (vectorizer matrix);
  read_classifier : string -> loaded (classifier matrix)
}.

Inductive script_event : Type :=
| St_set_page_config
| St_style
| St_title
| St_blank
| Joblib_load (path : string)
| St_error (text : string)
| St_code (text : string)
| On_page (e : event)
| St_caption_tip.

(** How a run of the script ends: at its last line, at [st.stop()],
    at [st.rerun()], or with an exception nobody catches. *)
Inductive outcome : Type :=
| Completed
| Stopped
| Rerun
| Uncaught (e : exn).

Definition L (A : Type) : Type :=
  list script_event -> loaded A * list script_event.

Definition and_then {A B} (m : L A) (k : A -> L B) : L B :=
  fun t =>
    match m t with
    | (Loaded a, t') => k a t'
    | (Load_failed message, t') => (Load_failed message, t')
    end.

Definition joblib_load {A} (read : string -> loaded A) (path : string)
  : L A :=
  fun t => (read path, t ++ [Joblib_load path]).

(** <<
    def load_artifacts():
        tfidf = joblib.load("tfidf.pkl")
        models = {
            "Logistic Regression": joblib.load("lr.pkl"),
            "Naive Bayes": joblib.load("Decision.pkl"),
            "SVM": joblib.load("random.pkl"),
            "Model 2": joblib.load("Boosting.pkl"),
        }
        return tfidf, models
    >> *)
Definition load_artifacts (d : disk) : L (artifacts matrix) :=
  and_then (joblib_load (read_vectorizer d) "tfidf.pkl") (fun tfidf_ =>
  and_then (joblib_load (read_classifier d) "lr.pkl") (fun lr =>
  and_then (joblib_load (read_classifier d) "Decision.pkl") (fun decision =>
  and_then (joblib_load (read_classifier d) "random.pkl") (fun random =>
  and_then (joblib_load (read_classifier d) "Boosting.pkl") (fun boosting =>
  fun t =>
    (Loaded {| tfidf := tfidf_;
               models := [("Logistic Regression", lr);
                          ("Naive Bayes", decision);
                          ("SVM", random);
                          ("Model 2", boosting)]%string |}, t)))))).

(** [@st.cache_resource]: the value of the first call that returned is
    kept for the life of the process and handed out again without
    running the body; a call that raised leaves nothing behind. *)
Definition cache : Type := option (artifacts matrix).

Definition cached_load_artifacts (d : disk) (c : cache)
  : list script_event -> loaded (artifacts matrix) * cache * list script_event :=
  fun t =>
    match c with
    | Some art => (Loaded art, c, t)
    | None =>
        match load_artifacts d t with
        | (Loaded art, t') => (Loaded art, Some art, t')
        | (Load_failed message, t') => (Load_failed message, None, t')
        end
    end.

(** One run of the whole script on the widget values of the run. *)
Definition script (d : disk) (c : cache)
    (news_text : Py.str) (detect_btn clear_btn : bool)
  : outcome * cache * list script_event :=
  let t0 := [St_set_page_config; St_style; St_title; St_blank] in
  match cached_load_artifacts d c t0 with
  | (Load_failed message, c', t1) =>
      (Stopped, c',
       t1 ++ [St_error "❌ Error loading models/vectorizer.";
              St_code message])
  | (Loaded art, c', t1) =>
      match page art news_text detect_btn clear_btn [] with
      | (Ok _, p) =>
          (Completed, c', t1 ++ map On_page p ++ [St_blank; St_caption_tip])
      | (Raise RerunException, p) => (Rerun, c', t1 ++ map On_page p)
      | (Raise e, p) => (Uncaught e, c', t1 ++ map On_page p)
      end
  end.

(** The text of the exception [joblib.load(path)] raises under
    [load_artifacts], if it raises. *)
Definition load_error (d : disk) (path : string) : option string :=
  if String.eqb path "tfidf.pkl" then
    match read_vectorizer d path with
    | Loaded _ => None
    | Load_failed message => Some message
    end
  else
    match read_classifier d path with
    | Loaded _ => None
    | Load_failed message => Some message
    end.


Definition is_on_page (e : script_event) : bool :=
  match e with
  | On_page _ => true
  | _ => false
  end.

End Script.

Arguments disk matrix : clear implicits.
Arguments cache matrix : clear implicits.

(** The display names, in the order of the dictionary literal. *)
Definition model_names : list string :=
  ["Logistic Regression"; "Naive Bayes"; "SVM"; "Model 2"]%string.

(** The five files in the order [load_artifacts] opens them. *)
Definition artifact_files : list string :=
  ["tfidf.pkl"; "lr.pkl"; "Decision.pkl"; "random.pkl"; "Boosting.pkl"]%string.

(* ================================================================= *)
(** ** Vocabulary for the page *)

(** A computation whose result does not depend on the trace it starts
    from and that only adds to it. *)
Definition framed {A} (m : M trace A) : Prop :=
  forall t, m t = (fst (m []), t ++ snd (m [])).

Section Answers.

Context {matrix : Type}.

(** What one adapter call returns and which calls it makes. *)
Definition answer_of (model : classifier matrix) (X : matrix)
  : result (Z * option Q) :=
  fst (get_prediction model X []).

Definition calls_of (model : classifier matrix) (X : matrix) : trace :=
  snd (get_prediction model X []).

(** The answers of all models by name, when every adapter call
    returns. *)
Fixpoint answer_table (items : list (string * classifier matrix)) (X : matrix)
  : option (list (string * (Z * option Q))) :=
  match items with
  | [] => Some []
  | (name, model) :: items' =>
      match answer_of model X, answer_table items' X with
      | Ok a, Some table => Some ((name, a) :: table)
      | _, _ => None
      end
  end.

(** The calls of all models, in the order of the dictionary. *)
Definition calls_of_all (items : list (string * classifier matrix)) (X : matrix)
  : trace :=
  flat_map (fun item => calls_of (snd item) X) items.

End Answers.

Definition table_preds (table : list (string * (Z * option Q)))
  : Py.dict Z :=
  map (fun r => (fst r, fst (snd r))) table.

Definition table_confs (table : list (string * (Z * option Q)))
  : Py.dict (option Q) :=
  map (fun r => (fst r, snd (snd r))) table.

Definition table_rows (table : list (string * (Z * option Q))) : trace :=
  map (fun r => St_model_row (fst r) (verdict_of (fst (snd r))) (snd (snd r)))
      table.

Definition is_classifier_call (e : event) : bool :=
  match e with
  | Model_predict | Model_predict_proba => true
  | _ => false
  end.

Definition is_model_row (e : event) : bool :=
  match e with
  | St_model_row _ _ _ => true
  | _ => false
  end.

Definition is_row (v : verdict) (e : event) : bool :=
  match e, v with
  | St_model_row _ REAL _, REAL | St_model_row _ FAKE _, FAKE => true
  | _, _ => false
  end.

Definition is_card (e : event) : bool :=
  match e with
  | St_result_card _ _ _ => true
  | _ => false
  end.

Definition is_transform (e : event) : bool :=
  match e with
  | Tfidf_transform _ => true
  | _ => false
  end.

Definition is_warning (e : event) : bool :=
  match e with
  | St_warning _ => true
  | _ => false
  end.

(** The sum of a row of probabilities. *)
Definition Qsum (row : list Q) : Q := fold_right Qplus 0 row.


(** ** More sample data *)

Definition clf_silent : classifier docs :=
  {| predict := fun _ => [];
     predict_proba := None |}.

Definition clf_no_rows : classifier docs :=
  {| predict := fun X => map (fun _ => 1%Z) X;
     predict_proba := Some (fun _ => []) |}.

Definition clf_three : classifier docs :=
  {| predict := fun X => map (fun _ => 2%Z) X;
     predict_proba := Some (fun X => map (fun _ => [1 # 2; 1 # 4; 1 # 4]) X) |}.

Definition broken_artifacts : artifacts docs :=
  {| tfidf := {| transform := fun texts => texts |};
     models := [("Logistic Regression", clf_proba);
                ("Naive Bayes", clf_silent);
                ("SVM", clf_plain)]%string |}.

Definition toy_table : list (string * (Z * option Q)) :=
  [("Logistic Regression", (0%Z, Some (3 # 4)));
   ("Naive Bayes", (1%Z, None));
   ("SVM", (1%Z, None));
   ("Model 2", (0%Z, Some (3 # 4)))]%string.

(** The text [" ok\n"]. *)
Definition padded_text : Py.str := [32; 111; 107; 10]%N.

(** A disk with all five files, and one where [random.pkl] is gone. *)
Definition good_disk : disk docs :=
  {| read_vectorizer := fun _ => Loaded (tfidf toy_artifacts);
     read_classifier := fun path =>
       if String.eqb path "lr.pkl" then Loaded clf_proba
       else if String.eqb path "Boosting.pkl" then Loaded clf_proba
       else Loaded clf_plain |}.

Definition bad_disk : disk docs :=
  {| read_vectorizer := fun _ => Loaded (tfidf toy_artifacts);
     read_classifier := fun path =>
       if String.eqb path "random.pkl"
       then Load_failed "No such file or directory: random.pkl"%string
       else Loaded clf_plain |}.

(* ================================================================= *)
(** * Properties of [list.count] *)

Lemma count_nonneg (x : Z) (a : list Z) : (0 <= Py.count x a)%Z.
Proof.
  induction a as [|y a IH]; simpl; [lia|].
  destruct (y =? x)%Z; lia.
Qed.

Lemma count_app (x : Z) (a b : list Z) :
  Py.count x (a ++ b) = (Py.count x a + Py.count x b)%Z.
Proof.
  induction a as [|y a IH]; simpl; [reflexivity|].
  rewrite IH. lia.
Qed.

Lemma count_Permutation (x : Z) (a b : list Z) :
  Permutation a b -> Py.count x a = Py.count x b.
Proof.
  induction 1 as [|y a b _ IH|y z a|a b c _ IH1 _ IH2]; simpl.
  - reflexivity.
  - now rewrite IH.
  - lia.
  - congruence.
Qed.

(** [count] over the values is the number of entries with that label. *)
Lemma count_values (v : Z) (d : Py.dict Z) :
  Py.count v (Py.values d) = votes_for v d.
Proof.
  unfold votes_for.
  induction d as [|[k w] d IH]; [reflexivity|].
  cbn [Py.values map snd Py.count filter].
  fold (Py.values d). rewrite IH.
  destruct (w =? v)%Z; [rewrite length_cons, Nat2Z.inj_succ|]; lia.
Qed.

Lemma count_binary_total (a : list Z) :
  Forall binary a ->
  (Py.count 1 a + Py.count 0 a = Z.of_nat (List.length a))%Z.
Proof.
  induction 1 as [|y a [-> | ->] _ IH];
    [reflexivity| |]; rewrite length_cons, Nat2Z.inj_succ;
    cbn [Py.count Z.eqb Pos.eqb]; lia.
Qed.

Lemma count_skip (x y : Z) (a b : list Z) :
  y <> x -> Py.count x (a ++ y :: b) = Py.count x (a ++ b).
Proof.
  intros Hne. rewrite !count_app. simpl.
  destruct (Z.eqb_spec y x); [contradiction|lia].
Qed.

(** The result of [majority_vote] in the vocabulary of the
    specification. *)
Lemma majority_vote_votes (d : Py.dict Z) :
  majority_vote d =
  ((if (votes_for 1 d >? votes_for 0 d)%Z then 1 else 0)%Z,
   votes_for 1 d, votes_for 0 d).
Proof.
  unfold majority_vote. now rewrite !count_values.
Qed.

Lemma majority_vote_Permutation (d d' : Py.dict Z) :
  Permutation d d' -> majority_vote d' = majority_vote d.
Proof.
  intros HP. unfold majority_vote, Py.values.
  assert (HV : Permutation (map snd d) (map snd d'))
    by now apply Permutation_map.
  now rewrite (count_Permutation 1 HV), (count_Permutation 0 HV).
Qed.

Lemma binaryb_binary (v : Z) : binaryb v = true <-> binary v.
Proof.
  unfold binaryb, binary. rewrite orb_true_iff, !Z.eqb_eq. tauto.
Qed.

Lemma forallb_binary (a : list Z) :
  forallb binaryb a = true -> Forall binary a.
Proof.
  rewrite forallb_forall, Forall_forall.
  intros H v Hv. now apply binaryb_binary, H.
Qed.

Lemma count_filter_binary (a : list Z) :
  (Py.count 1 a + Py.count 0 a
   = Z.of_nat (List.length (filter binaryb a)))%Z.
Proof.
  induction a as [|y a IH]; [reflexivity|].
  cbn [Py.count filter]. unfold binaryb at 1.
  destruct (Z.eqb_spec y 1) as [-> | H1]; [|destruct (Z.eqb_spec y 0)].
  - cbn [Z.eqb orb]. rewrite length_cons, Nat2Z.inj_succ. lia.
  - cbn [orb]. rewrite length_cons, Nat2Z.inj_succ. lia.
  - cbn [orb]. lia.
Qed.

(* ================================================================= *)
(** * [majority_vote] on the heap *)

Lemma nth_error_snoc {A} (h : list A) (x : A) :
  nth_error (h ++ [x]) (List.length h) = Some x.
Proof.
  rewrite nth_error_app2 by lia. now rewrite Nat.sub_diag.
Qed.

Lemma nth_error_grow {A} (h h' : list A) (a : nat) (x : A) :
  nth_error h a = Some x -> nth_error (h ++ h') a = Some x.
Proof.
  intros H. rewrite nth_error_app1; [assumption|].
  apply nth_error_Some. congruence.
Qed.

(** On a reference to a dictionary the heap run returns what the
    function computes from the entries, and its only trace in the heap
    is the list it allocated for itself. *)
Lemma heap_majority_vote_run (h : Heap.heap) (r : Heap.ref) (d : Py.dict Z) :
  nth_error h r = Some (Heap.Dict d) ->
  Heap.majority_vote r h
  = (Ok (majority_vote d), h ++ [Heap.List (Py.values d)]).
Proof.
  intros Hr.
  unfold Heap.majority_vote, Heap.list_of_values, Heap.list_count,
    Heap.load, Heap.alloc, bind, ret.
  rewrite Hr. cbn iota beta. rewrite !nth_error_snoc. reflexivity.
Qed.

(* ================================================================= *)
(** * The majority aggregator *)

(** C1. For a non-empty mapping whose labels are all 0 or 1, the final
    label is 1 when strictly more entries carry 1 than carry 0, and 0
    otherwise; an exact tie gives 0; and the whole result is the same
    for every reordering of the entries. *)
Theorem majority_vote_strict_majority (d : Py.dict Z) :
  d <> [] ->
  Forall binary (Py.values d) ->
  ((votes_for 1 d > votes_for 0 d)%Z ->
     final_label (majority_vote d) = 1%Z)
  /\ ((votes_for 1 d <= votes_for 0 d)%Z ->
        final_label (majority_vote d) = 0%Z)
  /\ (votes_for 1 d = votes_for 0 d ->
        final_label (majority_vote d) = 0%Z)
  /\ (forall d', Permutation d d' -> majority_vote d' = majority_vote d).
Proof.
  intros _ _. rewrite majority_vote_votes. unfold final_label. cbn [fst].
  repeat split.
  - intros H. destruct (Z.gtb_spec (votes_for 1 d) (votes_for 0 d)); lia.
  - intros H. destruct (Z.gtb_spec (votes_for 1 d) (votes_for 0 d)); lia.
  - intros H. rewrite H, Z.gtb_ltb, Z.ltb_irrefl. reflexivity.
  - intros d' HP. rewrite <- majority_vote_votes.
    now apply majority_vote_Permutation.
Qed.

Lemma majority_vote_strict_majority_witness :
  votes_tie <> []
  /\ Forall binary (Py.values votes_tie)
  /\ final_label (majority_vote votes_tie) = 0%Z
  /\ majority_vote (rev votes_tie) = majority_vote votes_tie.
Proof.
  assert (Hne : votes_tie <> []) by discriminate.
  assert (Hbin : Forall binary (Py.values votes_tie))
    by (apply forallb_binary; reflexivity).
  destruct (majority_vote_strict_majority Hne Hbin) as (_ & _ & Htie & Hperm).
  split; [exact Hne|]. split; [exact Hbin|]. split.
  - apply Htie. reflexivity.
  - apply Hperm, Permutation_rev.
Defined.

(** C2. When every label is 0 or 1 the two returned counts add up to
    the number of entries of the mapping. *)
Theorem majority_vote_counts_total (d : Py.dict Z) :
  Forall binary (Py.values d) ->
  (ones_of (majority_vote d) + zeros_of (majority_vote d) = Py.len d)%Z.
Proof.
  intros Hbin. unfold majority_vote, ones_of, zeros_of, Py.len. cbn [fst snd].
  rewrite (count_binary_total Hbin). unfold Py.values.
  now rewrite length_map.
Qed.

Lemma majority_vote_counts_total_witness :
  Forall binary (Py.values votes_real)
  /\ (ones_of (majority_vote votes_real)
      + zeros_of (majority_vote votes_real) = 4)%Z.
Proof.
  assert (Hbin : Forall binary (Py.values votes_real))
    by (apply forallb_binary; reflexivity).
  split; [assumption|].
  exact (majority_vote_counts_total votes_real Hbin).
Defined.

(** C3. The test vectors of the specification: a 2-2 split gives
    (0, 2, 2), a 3-1 split gives (1, 3, 1), and the one-entry mapping
    with label 1 gives (1, 1, 0). *)
Theorem majority_vote_test_vectors :
  majority_vote votes_tie = (0, 2, 2)%Z
  /\ majority_vote votes_real = (1, 3, 1)%Z
  /\ majority_vote votes_single = (1, 1, 0)%Z.
Proof.
  repeat split; reflexivity.
Qed.

(** C4. On the empty mapping the aggregator returns final label 0 with
    both counts 0; run on a heap whose reference holds the empty
    dictionary it returns this value and raises nothing. *)
Theorem majority_vote_empty :
  majority_vote [] = (0, 0, 0)%Z
  /\ forall (h : Heap.heap) (r : Heap.ref),
       nth_error h r = Some (Heap.Dict []) ->
       fst (Heap.majority_vote r h) = Ok (0, 0, 0)%Z.
Proof.
  split; [reflexivity|].
  intros h r Hr. now rewrite (heap_majority_vote_run _ _ Hr).
Qed.

Lemma majority_vote_empty_witness :
  nth_error toy_heap 2%nat = Some (Heap.Dict [])
  /\ fst (Heap.majority_vote 2%nat toy_heap) = Ok (0, 0, 0)%Z.
Proof.
  split; [reflexivity|].
  exact (proj2 majority_vote_empty toy_heap 2%nat eq_refl).
Defined.

(** C7. The aggregator is a function of the entries of its argument and
    has no effect on the caller's objects: two calls in a row on the
    same dictionary object return the same triple, the one computed
    from the entries alone, and every object that was on the heap
    before a call is the same after it. *)
Theorem majority_vote_pure (h : Heap.heap) (r : Heap.ref) (d : Py.dict Z) :
  nth_error h r = Some (Heap.Dict d) ->
  exists h1 h2 : Heap.heap,
    Heap.majority_vote r h = (Ok (majority_vote d), h1)
    /\ Heap.majority_vote r h1 = (Ok (majority_vote d), h2)
    /\ (forall a o, nth_error h a = Some o -> nth_error h1 a = Some o)
    /\ (forall a o, nth_error h1 a = Some o -> nth_error h2 a = Some o).
Proof.
  intros Hr.
  pose (fresh := [Heap.List (Py.values d)]).
  exists (h ++ fresh), ((h ++ fresh) ++ fresh).
  assert (Hr1 : nth_error (h ++ fresh) r = Some (Heap.Dict d))
    by now apply nth_error_grow.
  split; [exact (heap_majority_vote_run _ _ Hr)|].
  split; [exact (heap_majority_vote_run _ _ Hr1)|].
  split; intros a o Ha; now apply nth_error_grow.
Qed.

Lemma majority_vote_pure_witness :
  nth_error toy_heap 1%nat = Some (Heap.Dict votes_tie)
  /\ exists h1 h2 : Heap.heap,
       Heap.majority_vote 1%nat toy_heap = (Ok (0, 2, 2)%Z, h1)
       /\ Heap.majority_vote 1%nat h1 = (Ok (0, 2, 2)%Z, h2)
       /\ nth_error h1 1%nat = Some (Heap.Dict votes_tie)
       /\ nth_error h2 1%nat = Some (Heap.Dict votes_tie).
Proof.
  assert (Hr : nth_error toy_heap 1%nat = Some (Heap.Dict votes_tie))
    by reflexivity.
  split; [exact Hr|].
  destruct (majority_vote_pure toy_heap 1%nat Hr) as (h1 & h2 & R1 & R2 & K1 & K2).
  exists h1, h2.
  split; [exact R1|]. split; [exact R2|].
  split; [exact (K1 _ _ Hr)|exact (K2 _ _ (K1 _ _ Hr))].
Defined.

(** C9. For any finite mapping with any integer labels the aggregator
    returns: the final label is 0 or 1, the counts are the numbers of
    entries labelled 1 and labelled 0, an entry with another label adds
    to neither count (removing it leaves the result unchanged, and the
    counts add up to the number of 0/1 entries), and the heap run on a
    reference to the mapping ends in [Ok]. *)
Theorem majority_vote_total (d : Py.dict Z) :
  binary (final_label (majority_vote d))
  /\ ones_of (majority_vote d) = votes_for 1 d
  /\ zeros_of (majority_vote d) = votes_for 0 d
  /\ (ones_of (majority_vote d) + zeros_of (majority_vote d)
      = Z.of_nat (List.length (filter binaryb (Py.values d))))%Z
  /\ (forall d1 k v d2,
        d = d1 ++ (k, v) :: d2 -> ~ binary v ->
        majority_vote d = majority_vote (d1 ++ d2))
  /\ (forall (h : Heap.heap) (r : Heap.ref),
        nth_error h r = Some (Heap.Dict d) ->
        exists h', Heap.majority_vote r h = (Ok (majority_vote d), h')).
Proof.
  split.
  { unfold majority_vote, final_label, binary. cbn [fst].
    destruct (_ >? _)%Z; auto. }
  split; [now rewrite majority_vote_votes|].
  split; [now rewrite majority_vote_votes|].
  split.
  { unfold majority_vote, ones_of, zeros_of. cbn [fst snd].
    apply count_filter_binary. }
  split.
  - intros d1 k v d2 -> Hv. unfold majority_vote, Py.values, binary in *.
    rewrite !map_app. cbn [map snd].
    rewrite !(@count_skip _ v) by tauto. reflexivity.
  - intros h r Hr. eexists. exact (heap_majority_vote_run _ _ Hr).
Qed.

Lemma majority_vote_total_witness :
  majority_vote votes_odd_label = (1, 2, 1)%Z
  /\ majority_vote votes_odd_label
     = majority_vote [("A", 1); ("C", 0); ("D", -1); ("E", 1)]%string%Z
  /\ exists h',
       Heap.majority_vote 0%nat [Heap.Dict votes_odd_label]
       = (Ok (1, 2, 1)%Z, h').
Proof.
  destruct (majority_vote_total votes_odd_label)
    as (_ & _ & _ & _ & Hskip & Hrun).
  split; [reflexivity|]. split.
  - apply (Hskip [("A"%string, 1%Z)] "B"%string 7%Z); [reflexivity|].
    unfold binary. lia.
  - exact (Hrun [Heap.Dict votes_odd_label] 0%nat eq_refl).
Defined.

(* ================================================================= *)
(** * [np.max] *)

Lemma Qmax_select (x y : Q) : Qmax x y = x \/ Qmax x y = y.
Proof.
  unfold Qmax, GenericMinMax.gmax. destruct (x ?= y); auto.
Qed.

Lemma fold_Qmax_is_max (a : list Q) (x : Q) :
  is_max_of (fold_left Qmax a x) (x :: a).
Proof.
  revert x. induction a as [|y a IH]; intros x; cbn [fold_left].
  - split; [now left|]. intros z [<- | []]. apply Qle_refl.
  - destruct (IH (Qmax x y)) as [Hin Hub]. split.
    + destruct Hin as [Hin | Hin]; [|right; right; exact Hin].
      destruct (Qmax_select x y) as [E | E]; [left | right; left];
        (etransitivity; [symmetry; exact E | exact Hin]).
    + intros z [<- | [<- | Hz]].
      * eapply Qle_trans; [apply Q.le_max_l|]. apply Hub. now left.
      * eapply Qle_trans; [apply Q.le_max_r|]. apply Hub. now left.
      * apply Hub. now right.
Qed.

Lemma Np_max_is_max (a : list Q) :
  a <> [] -> exists m, Np.max a = Ok m /\ is_max_of m a.
Proof.
  destruct a as [|x a]; [congruence|]. intros _.
  exists (fold_left Qmax a x). split; [reflexivity|].
  apply fold_Qmax_is_max.
Qed.

(* ================================================================= *)
(** * The prediction adapter *)

Section Adapter.

Context {matrix : Type}.
Implicit Types (model : classifier matrix) (X : matrix) (t : trace).

(** A model without [predict_proba]: one call of [predict], and the
    confidence is [None]. *)
Lemma get_prediction_plain model X t :
  predict_proba model = None ->
  get_prediction model X t
  = (match predict model X with
     | [] => Raise IndexError
     | label :: _ => Ok (label, None)
     end, t ++ [Model_predict]).
Proof.
  intros Hno. unfold get_prediction, bind, emit, lift, ret.
  rewrite Hno. now destruct (predict model X).
Qed.

(** A model with [predict_proba] whose two calls return non-empty
    arrays. *)
Lemma get_prediction_proba model X t proba_fn label labels row rows m :
  predict_proba model = Some proba_fn ->
  predict model X = label :: labels ->
  proba_fn X = row :: rows ->
  Np.max row = Ok m ->
  get_prediction model X t
  = (Ok (label, Some m), (t ++ [Model_predict]) ++ [Model_predict_proba]).
Proof.
  intros Hp Hl Hr Hm. unfold get_prediction, bind, emit, lift, ret.
  rewrite Hp, Hl. cbn [Py.item0]. rewrite Hr. cbn [Py.item0].
  now rewrite Hm.
Qed.

End Adapter.

(** C5. For a classifier without a probability-estimation operation the
    adapter returns the predicted label with the confidence absent:
    whenever it returns a pair, the confidence is [None], never a
    number. *)
Theorem get_prediction_confidence_absent
    (matrix : Type) (model : classifier matrix) (X : matrix) (t : trace) :
  predict_proba model = None ->
  (forall label labels,
      predict model X = label :: labels ->
      fst (get_prediction model X t) = Ok (label, None))
  /\ (forall pred conf t',
        get_prediction model X t = (Ok (pred, conf), t') -> conf = None).
Proof.
  intros Hno. rewrite (@get_prediction_plain _ model X t Hno). split.
  - intros label labels ->. reflexivity.
  - intros pred conf t'. destruct (predict model X); congruence.
Qed.

Lemma get_prediction_confidence_absent_witness :
  predict_proba clf_plain = None
  /\ get_prediction clf_plain [some_text] []
     = (Ok (1%Z, None), [Model_predict]).
Proof.
  split; [reflexivity|].
  destruct (@get_prediction_confidence_absent docs clf_plain [some_text] []
              eq_refl) as [Hret _].
  rewrite (surjective_pairing (get_prediction clf_plain [some_text] [])).
  now rewrite (Hret 1%Z [] eq_refl).
Defined.

(** C6. For a classifier with a probability-estimation operation the
    adapter returns the predicted label together with a confidence that
    is the largest of the class probabilities the classifier reports
    for the document. *)
Theorem get_prediction_confidence_is_max
    (matrix : Type) (model : classifier matrix) (X : matrix) (t : trace)
    (proba_fn : matrix -> list (list Q))
    (label : Z) (labels : list Z) (row : list Q) (rows : list (list Q)) :
  predict_proba model = Some proba_fn ->
  predict model X = label :: labels ->
  proba_fn X = row :: rows ->
  row <> [] ->
  exists conf : Q,
    fst (get_prediction model X t) = Ok (label, Some conf)
    /\ is_max_of conf row.
Proof.
  intros Hp Hl Hr Hne.
  destruct (Np_max_is_max Hne) as (m & Hm & Hmax).
  exists m. split; [|exact Hmax].
  now rewrite (@get_prediction_proba _ model X t _ _ _ _ _ _ Hp Hl Hr Hm).
Qed.

Lemma get_prediction_confidence_is_max_witness :
  exists conf : Q,
    fst (get_prediction clf_proba [some_text] []) = Ok (0%Z, Some conf)
    /\ is_max_of conf [3 # 4; 1 # 4].
Proof.
  apply (@get_prediction_confidence_is_max docs clf_proba [some_text] []
           (fun X => map (fun _ => [3 # 4; 1 # 4]) X) 0%Z [] _ []);
    [reflexivity | reflexivity | reflexivity | discriminate].
Defined.

(** C10. When the reported probabilities of the two classes are
    nonnegative and sum to 1, the confidence the adapter returns lies
    between 1/2 and 1. *)
Theorem get_prediction_confidence_range
    (matrix : Type) (model : classifier matrix) (X : matrix) (t : trace)
    (proba_fn : matrix -> list (list Q))
    (label : Z) (labels : list Z) (p0 p1 : Q) (rows : list (list Q)) :
  predict_proba model = Some proba_fn ->
  predict model X = label :: labels ->
  proba_fn X = [p0; p1] :: rows ->
  0 <= p0 -> 0 <= p1 -> p0 + p1 == 1 ->
  exists conf : Q,
    fst (get_prediction model X t) = Ok (label, Some conf)
    /\ 1 # 2 <= conf /\ conf <= 1.
Proof.
  intros Hp Hl Hr H0 H1 Hsum.
  exists (Qmax p0 p1). split.
  - now rewrite (@get_prediction_proba _ model X t _ _ _ _ _ (Qmax p0 p1)
                   Hp Hl Hr eq_refl).
  - destruct (Q.max_spec p0 p1) as [[Hlt ->] | [Hle ->]]; split; lra.
Qed.

Lemma get_prediction_confidence_range_witness :
  exists conf : Q,
    fst (get_prediction clf_proba [some_text] []) = Ok (0%Z, Some conf)
    /\ 1 # 2 <= conf /\ conf <= 1.
Proof.
  apply (@get_prediction_confidence_range docs clf_proba [some_text] []
           (fun X => map (fun _ => [3 # 4; 1 # 4]) X) 0%Z [] (3 # 4) (1 # 4) []);
    [reflexivity | reflexivity | reflexivity | | | ];
    vm_compute; congruence.
Defined.

(* ================================================================= *)
(** * The detect button *)

Lemma lstrip_blank (s : Py.str) :
  forallb Py.isspace s = true -> Py.lstrip s = [].
Proof.
  induction s as [|c s IH]; [reflexivity|].
  cbn [forallb Py.lstrip]. intros [Hc Hs]%andb_prop.
  rewrite Hc. now apply IH.
Qed.

Lemma strip_blank (s : Py.str) :
  forallb Py.isspace s = true -> Py.strip s = [].
Proof.
  intros H. unfold Py.strip. now rewrite (lstrip_blank s H).
Qed.

(** A text with a character that is not whitespace survives [strip]. *)
Lemma lstrip_keeps (s : Py.str) :
  forallb Py.isspace s = false -> forallb Py.isspace (Py.lstrip s) = false.
Proof.
  induction s as [|c s IH]; [discriminate|].
  cbn [Py.lstrip]. destruct (Py.isspace c) eqn:Hc.
  - cbn [forallb]. rewrite Hc. exact IH.
  - trivial.
Qed.

Lemma forallb_rev {A} (f : A -> bool) (l : list A) :
  forallb f (rev l) = forallb f l.
Proof.
  induction l as [|x l IH]; [reflexivity|].
  cbn [rev forallb]. rewrite forallb_app, IH. cbn [forallb].
  now rewrite andb_true_r, andb_comm.
Qed.

Lemma strip_keeps (s : Py.str) :
  forallb Py.isspace s = false -> Py.truthy (Py.strip s) = true.
Proof.
  intros H. unfold Py.strip, Py.rstrip.
  apply lstrip_keeps in H. rewrite <- forallb_rev in H.
  apply lstrip_keeps in H. rewrite <- forallb_rev in H.
  now destruct (rev _).
Qed.

(** The trace only grows: every computation of the page is [appends]. *)
Section Trace.

Context {matrix : Type}.

Lemma appends_ret {A} (a : A) : appends (ret a).
Proof. intros t. exists []. cbn. now rewrite app_nil_r. Qed.

Lemma appends_raise {A} (e : exn) : appends (raise (A := A) e).
Proof. intros t. exists []. cbn. now rewrite app_nil_r. Qed.

Lemma appends_lift {A} (r : result A) : appends (lift r).
Proof. intros t. exists []. cbn. now rewrite app_nil_r. Qed.

Lemma appends_emit (e : event) : appends (emit e).
Proof. intros t. now exists [e]. Qed.

Lemma appends_bind {A B} (m : M trace A) (k : A -> M trace B) :
  appends m -> (forall a, appends (k a)) -> appends (bind m k).
Proof.
  intros Hm Hk t. unfold bind.
  destruct (Hm t) as [t1 E1]. destruct (m t) as [[a | e] s]; cbn in E1.
  - destruct (Hk a s) as [t2 E2]. exists (t1 ++ t2).
    now rewrite E2, E1, app_assoc.
  - now exists t1.
Qed.

Create HintDb appends.

#[local] Hint Resolve appends_ret appends_raise appends_lift appends_emit
  appends_bind : appends.

Lemma appends_get_prediction (model : classifier matrix) (X : matrix) :
  appends (get_prediction model X).
Proof.
  unfold get_prediction. destruct (predict_proba model);
    repeat (apply appends_bind; [|intros ?]); auto with appends.
Qed.

Lemma appends_predict_all (items : list (string * classifier matrix))
    (X : matrix) (ps : Py.dict Z) (cs : Py.dict (option Q)) :
  appends (predict_all items X ps cs).
Proof.
  revert ps cs. induction items as [|[name model] items IH]; intros ps cs.
  - apply appends_ret.
  - cbn [predict_all]. apply appends_bind;
      [apply appends_get_prediction | intros [pred conf]; apply IH].
Qed.

Lemma appends_write_rows (names : list string)
    (ps : Py.dict Z) (cs : Py.dict (option Q)) :
  appends (write_rows names ps cs).
Proof.
  induction names as [|name names IH]; cbn [write_rows].
  - apply appends_ret.
  - repeat (apply appends_bind; [|intros ?]); auto with appends.
Qed.

(** A text that is not blank reaches the vectorizer. *)
Lemma detect_transforms (art : artifacts matrix) (news_text : Py.str) :
  forallb Py.isspace news_text = false ->
  exists t', snd (detect art news_text [])
             = Tfidf_transform [news_text] :: t'.
Proof.
  intros H. unfold detect. rewrite (strip_keeps _ H). cbn [negb].
  unfold bind at 1. cbn [emit app].
  match goal with |- context [snd (?m ?t)] =>
    assert (Hm : appends m); [|destruct (Hm t) as [t' E]; now exists t']
  end.
  apply appends_bind; [apply appends_predict_all|].
  intros [ps cs]. destruct (majority_vote ps) as [[final_pred ones] zeros].
  repeat (apply appends_bind; [|intros ?]);
    auto using appends_write_rows with appends.
Qed.

End Trace.

(** With the toy artifacts a text that is not blank goes through the
    vectorizer and all four classifiers. *)
Example page_runs_inference :
  filter is_inference (snd (page toy_artifacts some_text true false []))
  = [Tfidf_transform [some_text];
     Model_predict; Model_predict_proba; Model_predict; Model_predict;
     Model_predict; Model_predict_proba].
Proof. reflexivity. Qed.

(** C8. When the submitted text is empty or all whitespace, pressing
    the detect button shows the warning and nothing else in the output
    column, and the run makes no call of the vectorizer or of any
    classifier, whatever the buttons. *)
Theorem blank_text_rejected
    (matrix : Type) (art : artifacts matrix) (news_text : Py.str) :
  forallb Py.isspace news_text = true ->
  detect art news_text []
  = (Ok tt, [St_warning "⚠️ Please paste some news text."])
  /\ page art news_text true false []
     = (Ok tt,
        [St_subheader "✍️ Paste News Text";
         St_text_area "Enter full news article/content";
         St_button "🔍 Detect News"; St_button "🧹 Clear";
         St_subheader "📌 Final Output";
         St_warning "⚠️ Please paste some news text."])
  /\ (forall (detect_btn clear_btn : bool) (e : event),
        In e (snd (page art news_text detect_btn clear_btn [])) ->
        is_inference e = false).
Proof.
  intros Hblank.
  assert (Hdetect : forall t,
             detect art news_text t
             = (Ok tt, t ++ [St_warning "⚠️ Please paste some news text."])).
  { intros t. unfold detect. now rewrite (strip_blank _ Hblank). }
  split; [apply Hdetect|].
  split.
  - unfold page, bind, emit, ret. cbn [app]. now rewrite Hdetect.
  - intros detect_btn clear_btn e.
    unfold page, bind, emit, ret, raise. cbn [app].
    destruct clear_btn, detect_btn; cbn [app snd]; rewrite ?Hdetect;
      cbn [app snd In]; intuition (subst; reflexivity).
Qed.

Lemma blank_text_rejected_witness :
  forallb Py.isspace blank_text = true
  /\ detect toy_artifacts blank_text []
     = (Ok tt, [St_warning "⚠️ Please paste some news text."])
  /\ filter is_inference (snd (page toy_artifacts blank_text true false []))
     = [].
Proof.
  assert (Hb : forallb Py.isspace blank_text = true) by reflexivity.
  destruct (@blank_text_rejected docs toy_artifacts blank_text Hb)
    as (Hd & Hp & _).
  split; [exact Hb|]. split; [exact Hd|].
  now rewrite Hp.
Defined.

(* ================================================================= *)
(** * Runs of the page from any trace *)

Lemma framed_ret {A} (a : A) : framed (ret a).
Proof. intros t. cbn. now rewrite app_nil_r. Qed.

Lemma framed_raise {A} (e : exn) : framed (raise (A := A) e).
Proof. intros t. cbn. now rewrite app_nil_r. Qed.

Lemma framed_lift {A} (r : result A) : framed (lift r).
Proof. intros t. cbn. now rewrite app_nil_r. Qed.

Lemma framed_emit (e : event) : framed (emit e).
Proof. intros t. reflexivity. Qed.

(** A sequence of two framed steps, run from any trace. *)
Lemma bind_run {A B} (m : M trace A) (k : A -> M trace B) :
  framed m -> (forall a, framed (k a)) ->
  forall t,
    bind m k t
    = match fst (m []) with
      | Ok a => (fst (k a []), t ++ snd (m []) ++ snd (k a []))
      | Raise e => (Raise e, t ++ snd (m []))
      end.
Proof.
  intros Hm Hk t. unfold bind. rewrite (Hm t).
  destruct (fst (m [])) as [a | e]; [|reflexivity].
  rewrite (Hk a). now rewrite app_assoc.
Qed.

Lemma framed_bind {A B} (m : M trace A) (k : A -> M trace B) :
  framed m -> (forall a, framed (k a)) -> framed (bind m k).
Proof.
  intros Hm Hk t. rewrite (@bind_run _ _ m k Hm Hk t), (@bind_run _ _ m k Hm Hk []).
  now destruct (fst (m [])).
Qed.

Create HintDb framed.

#[local] Hint Resolve framed_ret framed_raise framed_lift framed_emit
  framed_bind : framed.

Ltac framed_steps :=
  repeat (apply framed_bind; [|intros ?]); auto with framed.

Section Frames.

Context {matrix : Type}.
Implicit Types (model : classifier matrix) (X : matrix) (t : trace).
Implicit Types (art : artifacts matrix).

Lemma framed_get_prediction model X : framed (get_prediction model X).
Proof.
  unfold get_prediction. destruct (predict_proba model); framed_steps.
Qed.

Lemma get_prediction_run model X t :
  get_prediction model X t = (answer_of model X, t ++ calls_of model X).
Proof. apply framed_get_prediction. Qed.

Lemma calls_of_shape model X :
  calls_of model X
  = match predict model X, predict_proba model with
    | _ :: _, Some _ => [Model_predict; Model_predict_proba]
    | _, _ => [Model_predict]
    end.
Proof.
  unfold calls_of, get_prediction, bind, emit, lift, ret.
  destruct (predict model X) as [|label labels]; [reflexivity|].
  cbn [Py.item0]. destruct (predict_proba model) as [f|]; [|reflexivity].
  destruct (f X) as [|row rows]; [reflexivity|]. cbn [Py.item0].
  now destruct (Np.max row).
Qed.

Lemma framed_predict_all (items : list (string * classifier matrix)) X
    (ps : Py.dict Z) (cs : Py.dict (option Q)) :
  framed (predict_all items X ps cs).
Proof.
  revert ps cs. induction items as [|[name model] items IH]; intros ps cs.
  - apply framed_ret.
  - cbn [predict_all]. apply framed_bind;
      [apply framed_get_prediction | intros [pred conf]; apply IH].
Qed.

Lemma framed_write_rows (names : list string)
    (ps : Py.dict Z) (cs : Py.dict (option Q)) :
  framed (write_rows names ps cs).
Proof.
  induction names as [|name names IH]; cbn [write_rows]; framed_steps.
Qed.

Lemma framed_detect art (news_text : Py.str) : framed (detect art news_text).
Proof.
  unfold detect. destruct (negb _); [apply framed_emit|].
  apply framed_bind; [apply framed_emit | intros _].
  apply framed_bind; [apply framed_predict_all | intros [ps cs]].
  destruct (majority_vote ps) as [[final_pred ones] zeros].
  repeat (apply framed_bind; [|intros ?]);
    auto using framed_write_rows with framed.
Qed.

End Frames.

(* ================================================================= *)
(** * More on the prediction adapter *)

(** X1. When [predict] returns an empty array the adapter raises
    [IndexError] right after that call: [predict_proba] is not called,
    whether the model has it or not. *)
Theorem get_prediction_no_label
    (matrix : Type) (model : classifier matrix) (X : matrix) (t : trace) :
  predict model X = [] ->
  get_prediction model X t = (Raise IndexError, t ++ [Model_predict]).
Proof.
  intros Hl. unfold get_prediction, bind, emit, lift. now rewrite Hl.
Qed.

Lemma get_prediction_no_label_witness :
  predict clf_silent [some_text] = []
  /\ get_prediction clf_silent [some_text] []
     = (Raise IndexError, [Model_predict]).
Proof.
  split; [reflexivity|].
  exact (@get_prediction_no_label docs clf_silent [some_text] [] eq_refl).
Defined.

(** X2. For a model with [predict_proba] and a label from [predict]:
    an empty probability matrix raises [IndexError] and an empty first
    row raises [ValueError] (from [np.max]); in both cases the label
    already obtained is lost and both calls have been made. *)
Theorem get_prediction_no_probabilities
    (matrix : Type) (model : classifier matrix) (X : matrix) (t : trace)
    (proba_fn : matrix -> list (list Q)) (label : Z) (labels : list Z) :
  predict_proba model = Some proba_fn ->
  predict model X = label :: labels ->
  (proba_fn X = [] ->
   get_prediction model X t
   = (Raise IndexError, (t ++ [Model_predict]) ++ [Model_predict_proba]))
  /\ (forall rows,
        proba_fn X = [] :: rows ->
        get_prediction model X t
        = (Raise ValueError, (t ++ [Model_predict]) ++ [Model_predict_proba])).
Proof.
  intros Hp Hl. unfold get_prediction, bind, emit, lift.
  rewrite Hp, Hl. cbn [Py.item0]. split.
  - intros ->. reflexivity.
  - intros rows ->. reflexivity.
Qed.

Lemma get_prediction_no_probabilities_witness :
  get_prediction clf_no_rows [some_text] []
  = (Raise IndexError, [Model_predict; Model_predict_proba]).
Proof.
  exact (proj1 (@get_prediction_no_probabilities docs clf_no_rows
                  [some_text] [] (fun _ => []) 1%Z [] eq_refl eq_refl)
               eq_refl).
Defined.


(** X4. What the adapter returns does not depend on the trace so far,
    and its calls are: [predict] once and first, then [predict_proba]
    once when the model has it and [predict] gave a label, and nothing
    else. *)
Theorem get_prediction_calls
    (matrix : Type) (model : classifier matrix) (X : matrix) (t : trace) :
  get_prediction model X t
  = (fst (get_prediction model X []),
     t ++ match predict model X, predict_proba model with
          | _ :: _, Some _ => [Model_predict; Model_predict_proba]
          | _, _ => [Model_predict]
          end).
Proof.
  rewrite get_prediction_run, calls_of_shape. reflexivity.
Qed.

(* ----------------------------------------------------------------- *)
(** ** The confidence over any number of classes *)

Lemma Qsum_cons (p : Q) (row : list Q) : Qsum (p :: row) = p + Qsum row.
Proof. reflexivity. Qed.

Lemma Qsum_nonneg (row : list Q) : Forall (Qle 0) row -> 0 <= Qsum row.
Proof.
  induction 1 as [|p row Hp _ IH]; [apply Qle_refl|].
  rewrite Qsum_cons. lra.
Qed.

Lemma Qsum_ge_entry (row : list Q) (c : Q) :
  Forall (Qle 0) row -> In c row -> c <= Qsum row.
Proof.
  induction 1 as [|p row Hp Hrow IH]; [intros []|].
  pose proof (Qsum_nonneg Hrow) as Hs.
  rewrite Qsum_cons. intros [-> | Hin].
  - lra.
  - specialize (IH Hin). lra.
Qed.

Lemma Qsum_le_max (row : list Q) (c : Q) :
  (forall p, In p row -> p <= c) ->
  Qsum row <= c * inject_Z (Z.of_nat (List.length row)).
Proof.
  induction row as [|p row IH]; intros Hub.
  - change (0 <= c * 0). rewrite Qmult_0_r. apply Qle_refl.
  - rewrite Qsum_cons, length_cons, Nat2Z.inj_succ. unfold Z.succ.
    rewrite inject_Z_plus.
    assert (Hp : p <= c) by (apply Hub; now left).
    assert (Hr : Qsum row <= c * inject_Z (Z.of_nat (List.length row)))
      by (apply IH; intros q Hq; apply Hub; now right).
    setoid_replace (c * (inject_Z (Z.of_nat (List.length row)) + inject_Z 1))
      with (c * inject_Z (Z.of_nat (List.length row)) + c) by ring.
    lra.
Qed.

(** X5. For any number of classes: when the first row of probabilities
    is not empty, has no negative entry and sums to 1, the confidence
    returned is at most 1 and at least 1/n for the n entries of the
    row. *)
Theorem get_prediction_confidence_at_least_uniform
    (matrix : Type) (model : classifier matrix) (X : matrix) (t : trace)
    (proba_fn : matrix -> list (list Q))
    (label : Z) (labels : list Z) (row : list Q) (rows : list (list Q)) :
  predict_proba model = Some proba_fn ->
  predict model X = label :: labels ->
  proba_fn X = row :: rows ->
  row <> [] ->
  Forall (Qle 0) row ->
  Qsum row == 1 ->
  exists conf : Q,
    fst (get_prediction model X t) = Ok (label, Some conf)
    /\ 1 <= conf * inject_Z (Z.of_nat (List.length row))
    /\ conf <= 1.
Proof.
  intros Hp Hl Hr Hne Hpos Hsum.
  destruct (Np_max_is_max Hne) as (m & Hm & Hin & Hub).
  exists m. split.
  - now rewrite (@get_prediction_proba _ model X t _ _ _ _ _ _ Hp Hl Hr Hm).
  - split.
    + rewrite <- Hsum. now apply Qsum_le_max.
    + rewrite <- Hsum. now apply Qsum_ge_entry.
Qed.

Lemma get_prediction_confidence_at_least_uniform_witness :
  exists conf : Q,
    fst (get_prediction clf_three [some_text] []) = Ok (2%Z, Some conf)
    /\ 1 <= conf * inject_Z 3
    /\ conf <= 1.
Proof.
  apply (@get_prediction_confidence_at_least_uniform docs clf_three
           [some_text] [] (fun X => map (fun _ => [1 # 2; 1 # 4; 1 # 4]) X)
           2%Z [] [1 # 2; 1 # 4; 1 # 4] []);
    [reflexivity | reflexivity | reflexivity | discriminate | | reflexivity].
  repeat constructor; vm_compute; congruence.
Defined.

(* ================================================================= *)
(** * More on the majority aggregator *)

Lemma final_label_spec (d : Py.dict Z) :
  final_label (majority_vote d) = 1%Z
  <-> (ones_of (majority_vote d) > zeros_of (majority_vote d))%Z.
Proof.
  unfold majority_vote, final_label, ones_of, zeros_of. cbn [fst snd].
  destruct (Z.gtb_spec (Py.count 1 (Py.values d)) (Py.count 0 (Py.values d)));
    split; intros; try lia; discriminate.
Qed.

Lemma final_label_binary (d : Py.dict Z) :
  binary (final_label (majority_vote d)).
Proof.
  unfold majority_vote, final_label, binary. cbn [fst].
  destruct (_ >? _)%Z; auto.
Qed.



Lemma count_dict_set (x v : Z) (k : string) (d : Py.dict Z) :
  exists old : Z,
    (Py.count x (Py.values (Py.dict_set k v d))
     = Py.count x (Py.values d) - old + (if v =? x then 1 else 0))%Z
    /\ (old = 0 \/ old = 1)%Z
    /\ (old <= Py.count x (Py.values d))%Z.
Proof.
  induction d as [|[k' w] d IH].
  - exists 0%Z. cbn. destruct (v =? x)%Z; lia.
  - cbn [Py.dict_set]. destruct (String.eqb k' k).
    + exists (if w =? x then 1 else 0)%Z.
      cbn [Py.values map snd Py.count]. fold (Py.values d).
      pose proof (count_nonneg x (Py.values d)).
      destruct (w =? x)%Z, (v =? x)%Z; lia.
    + destruct IH as (old & E & Hold & Hle). exists old.
      cbn [Py.values map snd Py.count].
      fold (Py.values d) (Py.values (Py.dict_set k v d)).
      rewrite E. destruct (w =? x)%Z; lia.
Qed.

(** X7. Recording a vote of 1 under any name, new or already present,
    never turns the final label from 1 to 0, and recording a vote of 0
    never turns it from 0 to 1. *)
Theorem majority_vote_monotone (d : Py.dict Z) (k : string) :
  (final_label (majority_vote d)
   <= final_label (majority_vote (Py.dict_set k 1 d)))%Z
  /\ (final_label (majority_vote (Py.dict_set k 0 d))
      <= final_label (majority_vote d))%Z.
Proof.
  destruct (count_dict_set 1 1 k d) as (a1 & E11 & R11 & _).
  destruct (count_dict_set 0 1 k d) as (a0 & E01 & R01 & _).
  destruct (count_dict_set 1 0 k d) as (b1 & E10 & R10 & _).
  destruct (count_dict_set 0 0 k d) as (b0 & E00 & R00 & _).
  cbn [Z.eqb Pos.eqb] in E11, E01, E10, E00.
  unfold majority_vote, final_label. cbn [fst]. split.
  - destruct (Z.gtb_spec (Py.count 1 (Py.values d))
                         (Py.count 0 (Py.values d)));
      destruct (Z.gtb_spec (Py.count 1 (Py.values (Py.dict_set k 1%Z d)))
                           (Py.count 0 (Py.values (Py.dict_set k 1%Z d))));
      lia.
  - destruct (Z.gtb_spec (Py.count 1 (Py.values d))
                         (Py.count 0 (Py.values d)));
      destruct (Z.gtb_spec (Py.count 1 (Py.values (Py.dict_set k 0%Z d)))
                           (Py.count 0 (Py.values (Py.dict_set k 0%Z d))));
      lia.
Qed.




(* ================================================================= *)
(** * Dictionaries *)

Lemma dict_set_fresh {V} (k : string) (v : V) (d : Py.dict V) :
  ~ In k (Py.keys d) -> Py.dict_set k v d = d ++ [(k, v)].
Proof.
  induction d as [|[k' v'] d IH]; [reflexivity|].
  cbn [Py.keys map fst In Py.dict_set app]. intros Hk.
  destruct (String.eqb_spec k' k) as [-> | _]; [tauto|].
  fold (Py.keys d) in Hk. rewrite IH by tauto. reflexivity.
Qed.

Lemma dict_get_In {V} (k : string) (v : V) (d : Py.dict V) :
  NoDup (Py.keys d) -> In (k, v) d -> Py.dict_get k d = Ok v.
Proof.
  induction d as [|[k' v'] d IH]; [intros _ []|].
  cbn [Py.keys map fst Py.dict_get]. fold (Py.keys d).
  intros Hnd [[= -> ->] | Hin].
  - now rewrite String.eqb_refl.
  - inversion_clear Hnd as [|? ? Hk' Hd].
    destruct (String.eqb_spec k' k) as [-> | _]; [|now apply IH].
    exfalso. apply Hk'. unfold Py.keys. now apply (in_map fst) in Hin.
Qed.

Lemma keys_table_preds (table : list (string * (Z * option Q))) :
  Py.keys (table_preds table) = map fst table.
Proof. unfold Py.keys, table_preds. now rewrite map_map. Qed.

Lemma keys_table_confs (table : list (string * (Z * option Q))) :
  Py.keys (table_confs table) = map fst table.
Proof. unfold Py.keys, table_confs. now rewrite map_map. Qed.

(* ================================================================= *)
(** * The prediction loop *)

Section Loop.

Context {matrix : Type}.
Implicit Types (model : classifier matrix) (X : matrix) (t : trace).
Implicit Types (items : list (string * classifier matrix)).
Implicit Types (table : list (string * (Z * option Q))).

Lemma answer_table_keys items X table :
  answer_table items X = Some table -> map fst table = Py.keys items.
Proof.
  revert table. induction items as [|[name model] items IH]; intros table.
  - intros [= <-]. reflexivity.
  - cbn [answer_table]. destruct (answer_of model X) as [a|]; [|discriminate].
    destruct (answer_table items X) as [table'|]; [|discriminate].
    intros [= <-]. cbn. f_equal. now apply IH.
Qed.

Lemma calls_are_classifier_calls model X :
  forallb is_classifier_call (calls_of model X) = true.
Proof.
  rewrite calls_of_shape.
  destruct (predict model X), (predict_proba model); reflexivity.
Qed.

Lemma calls_of_all_classifier_calls items X :
  forallb is_classifier_call (calls_of_all items X) = true.
Proof.
  induction items as [|[name model] items IH]; [reflexivity|].
  unfold calls_of_all. cbn [flat_map snd]. rewrite forallb_app.
  now rewrite calls_are_classifier_calls.
Qed.

(** The loop when every adapter call returns: the two dictionaries
    grow by the answers, in order. *)
Lemma predict_all_run items X table
    (ps : Py.dict Z) (cs : Py.dict (option Q)) t :
  answer_table items X = Some table ->
  NoDup (Py.keys ps ++ Py.keys items) ->
  Py.keys cs = Py.keys ps ->
  predict_all items X ps cs t
  = (Ok (ps ++ table_preds table, cs ++ table_confs table),
     t ++ calls_of_all items X).
Proof.
  revert table ps cs t.
  induction items as [|[name model] items IH]; intros table ps cs t.
  - intros [= <-] _ _. cbn. now rewrite !app_nil_r.
  - cbn [answer_table].
    destruct (answer_of model X) as [[pred conf]|] eqn:Ha; [|discriminate].
    destruct (answer_table items X) as [table'|] eqn:Ht; [|discriminate].
    intros [= <-] Hnd Hk.
    cbn [predict_all]. unfold bind. rewrite get_prediction_run, Ha.
    assert (Hfresh : ~ In name (Py.keys ps)).
    { cbn [Py.keys map fst] in Hnd. fold (Py.keys items) in Hnd.
      intros Hin. apply NoDup_remove_2 in Hnd. apply Hnd.
      apply in_or_app. now left. }
    cbn beta iota.
    rewrite (@dict_set_fresh _ name pred ps Hfresh).
    rewrite (@dict_set_fresh _ name conf cs) by now rewrite Hk.
    rewrite (IH table').
    + unfold calls_of_all. cbn [flat_map snd table_preds table_confs map fst].
      rewrite <- !app_assoc. reflexivity.
    + reflexivity.
    + unfold Py.keys in *. rewrite map_app. cbn [map fst] in *.
      now rewrite <- app_assoc.
    + unfold Py.keys in *. rewrite !map_app. now rewrite Hk.
Qed.

(** The loop when an adapter call raises: the exception leaves the
    loop at once. *)
Lemma predict_all_raise (before after : list (string * classifier matrix))
    (name : string) model X (e : exn) table
    (ps : Py.dict Z) (cs : Py.dict (option Q)) t :
  answer_table before X = Some table ->
  answer_of model X = Raise e ->
  predict_all (before ++ (name, model) :: after) X ps cs t
  = (Raise e, t ++ calls_of_all before X ++ calls_of model X).
Proof.
  revert table ps cs t.
  induction before as [|[name' model'] before IH]; intros table ps cs t.
  - intros _ He. cbn [app predict_all]. unfold bind.
    now rewrite get_prediction_run, He.
  - cbn [answer_table].
    destruct (answer_of model' X) as [[pred conf]|] eqn:Ha; [|discriminate].
    destruct (answer_table before X) as [table'|] eqn:Ht; [|discriminate].
    intros _ He. cbn [app predict_all]. unfold bind.
    rewrite get_prediction_run, Ha. rewrite (IH table') by auto.
    unfold calls_of_all. cbn [flat_map snd]. now rewrite <- !app_assoc.
Qed.

(** A table that does not exist has a first model that raises. *)
Lemma answer_table_None items X :
  answer_table items X = None ->
  exists before name model after e table,
    items = before ++ (name, model) :: after
    /\ answer_table before X = Some table
    /\ answer_of model X = Raise e.
Proof.
  induction items as [|[name model] items IH]; [discriminate|].
  cbn [answer_table]. destruct (answer_of model X) as [a | e] eqn:Ha.
  - destruct (answer_table items X) as [table|] eqn:Ht; [discriminate|].
    intros _. destruct (IH eq_refl)
      as (before & name' & model' & after & e & table & -> & Hb & He).
    exists ((name, model) :: before), name', model', after, e,
      ((name, a) :: table).
    split; [reflexivity|]. split; [|exact He].
    cbn [answer_table]. now rewrite Ha, Hb.
  - intros _. exists [], name, model, items, e, [].
    repeat split. exact Ha.
Qed.

End Loop.

(* ================================================================= *)
(** * The output column *)

Lemma filter_none {A} (f g : A -> bool) (l : list A) :
  forallb g l = true -> (forall x, g x = true -> f x = false) ->
  filter f l = [].
Proof.
  intros Hg Hfg. induction l as [|x l IH]; [reflexivity|].
  cbn [forallb] in Hg. apply andb_prop in Hg as [Hx Hl].
  cbn [filter]. now rewrite (Hfg x Hx), IH.
Qed.

Lemma real_rows_count (table : list (string * (Z * option Q))) :
  Z.of_nat (List.length (filter (is_row REAL) (table_rows table)))
  = Py.count 1 (Py.values (table_preds table)).
Proof.
  induction table as [|[name [pred conf]] table IH]; [reflexivity|].
  cbn [table_rows table_preds Py.values map fst snd filter Py.count].
  fold (table_rows table) (table_preds table) (Py.values (table_preds table)).
  unfold verdict_of. rewrite <- IH.
  destruct (pred =? 1)%Z; cbn [is_row];
    [rewrite length_cons, Nat2Z.inj_succ|]; lia.
Qed.

Lemma fake_rows_count (table : list (string * (Z * option Q))) :
  (Py.count 0 (Py.values (table_preds table))
   <= Z.of_nat (List.length (filter (is_row FAKE) (table_rows table))))%Z.
Proof.
  induction table as [|[name [pred conf]] table IH]; [reflexivity|].
  cbn [table_rows table_preds Py.values map fst snd filter Py.count].
  fold (table_rows table) (table_preds table) (Py.values (table_preds table)).
  unfold verdict_of.
  destruct (Z.eqb_spec pred 1) as [-> | H1]; cbn [is_row Z.eqb].
  - lia.
  - rewrite length_cons, Nat2Z.inj_succ. destruct (pred =? 0)%Z; lia.
Qed.

Lemma rows_count (table : list (string * (Z * option Q))) :
  (List.length (filter (is_row REAL) (table_rows table))
   + List.length (filter (is_row FAKE) (table_rows table)))%nat
  = List.length table.
Proof.
  induction table as [|[name [pred conf]] table IH]; [reflexivity|].
  cbn [table_rows map fst snd filter].
  fold (table_rows table).
  destruct (verdict_of pred); cbn [is_row]; rewrite !length_cons; lia.
Qed.

Section Output.

Context {matrix : Type}.
Implicit Types (art : artifacts matrix) (X : matrix) (t : trace).
Implicit Types (table : list (string * (Z * option Q))).

Lemma write_rows_run table (sub : list (string * (Z * option Q))) t :
  NoDup (map fst table) -> incl sub table ->
  write_rows (map fst sub) (table_preds table) (table_confs table) t
  = (Ok tt, t ++ table_rows sub).
Proof.
  intros Hnd. revert t.
  induction sub as [|[name [pred conf]] sub IH]; intros t Hsub.
  - cbn. now rewrite app_nil_r.
  - assert (Hin : In (name, (pred, conf)) table) by (apply Hsub; now left).
    cbn [map fst write_rows]. unfold bind, lift, emit.
    rewrite (@dict_get_In _ name pred (table_preds table)).
    + rewrite (@dict_get_In _ name conf (table_confs table)).
      * rewrite IH by (intros r Hr; apply Hsub; now right).
        cbn [table_rows map fst snd]. now rewrite <- app_assoc.
      * now rewrite keys_table_confs.
      * unfold table_confs.
        now apply (in_map (fun r => (fst r, snd (snd r)))) in Hin.
    + now rewrite keys_table_preds.
    + unfold table_preds.
      now apply (in_map (fun r => (fst r, fst (snd r)))) in Hin.
Qed.

(** The whole of [detect] for a text that is not blank, when every
    adapter call returns. *)
Lemma detect_run art (news_text : Py.str) table t :
  forallb Py.isspace news_text = false ->
  NoDup (Py.keys (models art)) ->
  answer_table (models art) (transform (tfidf art) [news_text]) = Some table ->
  detect art news_text t
  = (Ok tt,
     t ++ Tfidf_transform [news_text]
       :: calls_of_all (models art) (transform (tfidf art) [news_text])
       ++ St_result_card
            (verdict_of (final_label (majority_vote (table_preds table))))
            (ones_of (majority_vote (table_preds table)))
            (zeros_of (majority_vote (table_preds table)))
       :: St_write EmptyString
       :: St_markdown "### 🧠 Model-wise Predictions"
       :: table_rows table
       ++ [St_write EmptyString; St_caption_checked_at]).
Proof.
  intros Htext Hnd Htable. unfold detect.
  rewrite (strip_keeps _ Htext). cbn [negb].
  unfold bind at 1. unfold emit at 1.
  unfold bind at 1.
  rewrite (@predict_all_run _ (models art) _ table [] []
             (t ++ [Tfidf_transform [news_text]]) Htable Hnd eq_refl).
  cbn [app].
  destruct (majority_vote (table_preds table)) as [[final_pred ones] zeros]
    eqn:Hmv.
  unfold final_label, ones_of, zeros_of. cbn [fst snd].
  unfold bind, emit.
  rewrite keys_table_preds.
  rewrite (@write_rows_run table table _ ) .
  - rewrite <- !app_assoc. reflexivity.
  - rewrite (answer_table_keys _ _ Htable). exact Hnd.
  - apply incl_refl.
Qed.

End Output.

Lemma existsb_none {A} (f g : A -> bool) (l : list A) :
  forallb g l = true -> (forall x, g x = true -> f x = false) ->
  existsb f l = false.
Proof.
  intros Hg Hfg. induction l as [|x l IH]; [reflexivity|].
  cbn [forallb] in Hg. apply andb_prop in Hg as [Hx Hl].
  cbn [existsb]. now rewrite (Hfg x Hx), IH.
Qed.

Lemma table_rows_are_rows (table : list (string * (Z * option Q))) :
  forallb is_model_row (table_rows table) = true.
Proof. induction table as [|r table IH]; [reflexivity | exact IH]. Qed.

Lemma answer_table_In {matrix : Type}
    (items : list (string * classifier matrix)) (X : matrix)
    (table : list (string * (Z * option Q)))
    (name : string) (model : classifier matrix) :
  answer_table items X = Some table ->
  In (name, model) items ->
  exists a, answer_of model X = Ok a /\ In (name, a) table.
Proof.
  revert table. induction items as [|[name' model'] items IH]; intros table.
  - intros _ [].
  - cbn [answer_table].
    destruct (answer_of model' X) as [a'|] eqn:Ha; [|discriminate].
    destruct (answer_table items X) as [table'|]; [|discriminate].
    intros [= <-] [[= -> ->] | Hin].
    + exists a'. split; [exact Ha | now left].
    + destruct (IH table' eq_refl Hin) as (a & Hans & Hina).
      exists a. split; [exact Hans | now right].
Qed.

(** X9. The prediction loop, when every adapter call returns and the
    model names are distinct: the models are called in the order of the
    dictionary, both result dictionaries have the model names as keys
    in that order, and each name is bound to the label and to the
    confidence its own model returned. *)
Theorem predict_all_fills_in_order
    (matrix : Type) (items : list (string * classifier matrix)) (X : matrix)
    (table : list (string * (Z * option Q))) (t : trace) :
  NoDup (Py.keys items) ->
  answer_table items X = Some table ->
  exists model_preds model_confs,
    predict_all items X [] [] t
    = (Ok (model_preds, model_confs), t ++ calls_of_all items X)
    /\ Py.keys model_preds = Py.keys items
    /\ Py.keys model_confs = Py.keys items
    /\ forall name model,
         In (name, model) items ->
         exists pred conf,
           fst (get_prediction model X []) = Ok (pred, conf)
           /\ Py.dict_get name model_preds = Ok pred
           /\ Py.dict_get name model_confs = Ok conf.
Proof.
  intros Hnd Htable.
  exists (table_preds table), (table_confs table).
  pose proof (answer_table_keys _ _ Htable) as Hkeys.
  split; [|split; [|split]].
  - exact (@predict_all_run _ items X table [] [] t Htable Hnd eq_refl).
  - now rewrite keys_table_preds.
  - now rewrite keys_table_confs.
  - intros name model Hin.
    destruct (@answer_table_In _ items X table name model Htable Hin)
      as ([pred conf] & Hans & Hrow).
    exists pred, conf. split; [exact Hans|]. split.
    + apply dict_get_In.
      * rewrite keys_table_preds, Hkeys. exact Hnd.
      * unfold table_preds.
        now apply (in_map (fun r => (fst r, fst (snd r)))) in Hrow.
    + apply dict_get_In.
      * rewrite keys_table_confs, Hkeys. exact Hnd.
      * unfold table_confs.
        now apply (in_map (fun r => (fst r, snd (snd r)))) in Hrow.
Qed.

Lemma predict_all_fills_in_order_witness :
  exists model_confs,
    fst (predict_all (models toy_artifacts) [some_text] [] [] [])
    = Ok ([("Logistic Regression", 0); ("Naive Bayes", 1);
           ("SVM", 1); ("Model 2", 0)]%string%Z, model_confs).
Proof.
  assert (Hnd : NoDup (Py.keys (models toy_artifacts))).
  { repeat constructor; cbn; intuition discriminate. }
  destruct (@predict_all_fills_in_order docs (models toy_artifacts)
              [some_text] toy_table [] Hnd eq_refl)
    as (ps & cs & Hrun & _ & _ & Hget).
  exists cs. rewrite Hrun. cbn [fst]. clear Hget.
  cbv in Hrun. now injection Hrun as <- <-.
Defined.

(** X10. The prediction loop stops at the first model whose adapter
    call raises: the exception leaves the loop, and the models after it
    in the dictionary are not called. *)
Theorem predict_all_stops_at_first_failure
    (matrix : Type) (before after : list (string * classifier matrix))
    (name : string) (model : classifier matrix) (X : matrix) (e : exn)
    (table : list (string * (Z * option Q)))
    (ps : Py.dict Z) (cs : Py.dict (option Q)) (t : trace) :
  answer_table before X = Some table ->
  fst (get_prediction model X []) = Raise e ->
  predict_all (before ++ (name, model) :: after) X ps cs t
  = (Raise e,
     t ++ calls_of_all before X ++ snd (get_prediction model X [])).
Proof.
  intros Hb He.
  exact (@predict_all_raise _ before after name model X e table ps cs t
           Hb He).
Qed.

Lemma predict_all_stops_at_first_failure_witness :
  predict_all (models broken_artifacts) [some_text] [] [] []
  = (Raise IndexError, [Model_predict; Model_predict_proba; Model_predict]).
Proof.
  exact (@predict_all_stops_at_first_failure docs
           [("Logistic Regression"%string, clf_proba)]
           [("SVM"%string, clf_plain)] "Naive Bayes"%string clf_silent
           [some_text] IndexError
           [("Logistic Regression"%string, (0%Z, Some (3 # 4)))]
           [] [] [] eq_refl eq_refl).
Defined.

(** X11. For a text that is not blank, distinct model names and
    adapter calls that all return, the detect handler ends normally and
    its output is, in this order: the call of the vectorizer, the calls
    of the models, one result card carrying the verdict and the two
    counts of [majority_vote] over the labels, the heading, one row per
    model in the order of the dictionary with that model's own verdict
    and confidence, and the time stamp. *)
Theorem detect_shows_votes_and_rows
    (matrix : Type) (art : artifacts matrix) (news_text : Py.str)
    (table : list (string * (Z * option Q))) :
  forallb Py.isspace news_text = false ->
  NoDup (Py.keys (models art)) ->
  answer_table (models art) (transform (tfidf art) [news_text]) = Some table ->
  detect art news_text []
  = (Ok tt,
     [Tfidf_transform [news_text]]
     ++ calls_of_all (models art) (transform (tfidf art) [news_text])
     ++ [St_result_card
           (verdict_of (final_label (majority_vote (table_preds table))))
           (ones_of (majority_vote (table_preds table)))
           (zeros_of (majority_vote (table_preds table)));
         St_write EmptyString;
         St_markdown "### 🧠 Model-wise Predictions"]
     ++ table_rows table
     ++ [St_write EmptyString; St_caption_checked_at]).
Proof.
  intros Htext Hnd Htable.
  rewrite (@detect_run _ art news_text table [] Htext Hnd Htable).
  reflexivity.
Qed.

Lemma detect_shows_votes_and_rows_witness :
  detect toy_artifacts some_text []
  = (Ok tt,
     [Tfidf_transform [some_text];
      Model_predict; Model_predict_proba; Model_predict; Model_predict;
      Model_predict; Model_predict_proba;
      St_result_card FAKE 2 2;
      St_write EmptyString;
      St_markdown "### 🧠 Model-wise Predictions";
      St_model_row "Logistic Regression" FAKE (Some (3 # 4));
      St_model_row "Naive Bayes" REAL None;
      St_model_row "SVM" REAL None;
      St_model_row "Model 2" FAKE (Some (3 # 4));
      St_write EmptyString; St_caption_checked_at]).
Proof.
  assert (Hnd : NoDup (Py.keys (models toy_artifacts))).
  { repeat constructor; cbn; intuition discriminate. }
  exact (@detect_shows_votes_and_rows docs toy_artifacts some_text toy_table
           eq_refl Hnd eq_refl).
Defined.

Lemma filter_calls_of_all {matrix : Type} (f : event -> bool)
    (items : list (string * classifier matrix)) (X : matrix) :
  (forall e, is_classifier_call e = true -> f e = false) ->
  filter f (calls_of_all items X) = [].
Proof.
  intros Hf. eapply filter_none; [apply calls_of_all_classifier_calls|].
  exact Hf.
Qed.

(** X12. In a successful run of the detect handler the rows shown and
    the tally on the card agree as follows: there is one row per model;
    the rows marked REAL are as many as the REAL votes on the card; the
    rows marked FAKE are at least as many as the FAKE votes (a label
    other than 0 and 1 is shown as FAKE but counted in neither vote);
    and the badge is REAL exactly when the REAL votes outnumber the
    FAKE votes. *)
Theorem detect_rows_match_tally
    (matrix : Type) (art : artifacts matrix) (news_text : Py.str)
    (table : list (string * (Z * option Q))) :
  forallb Py.isspace news_text = false ->
  NoDup (Py.keys (models art)) ->
  answer_table (models art) (transform (tfidf art) [news_text]) = Some table ->
  exists (badge : verdict) (ones zeros : Z) (shown : trace),
    detect art news_text [] = (Ok tt, shown)
    /\ filter is_card shown = [St_result_card badge ones zeros]
    /\ ones = Z.of_nat (List.length (filter (is_row REAL) shown))
    /\ (zeros <= Z.of_nat (List.length (filter (is_row FAKE) shown)))%Z
    /\ (List.length (filter (is_row REAL) shown)
        + List.length (filter (is_row FAKE) shown))%nat
       = List.length (models art)
    /\ (badge = REAL <-> (ones > zeros)%Z).
Proof.
  intros Htext Hnd Htable.
  pose (mv := majority_vote (table_preds table)).
  exists (verdict_of (final_label mv)), (ones_of mv), (zeros_of mv).
  eexists. split; [exact (@detect_run _ art news_text table [] Htext Hnd Htable)|].
  fold mv. cbn [app].
  assert (Hcalls : forall f,
             (forall e, is_classifier_call e = true -> f e = false) ->
             filter f (calls_of_all (models art)
                         (transform (tfidf art) [news_text])) = [])
    by (intros f; apply filter_calls_of_all).
  assert (Hlen : List.length table = List.length (models art)).
  { rewrite <- (length_map fst table), (answer_table_keys _ _ Htable).
    unfold Py.keys. apply length_map. }
  split; [|split; [|split; [|split]]].
  - cbn [filter is_card]. rewrite filter_app, Hcalls
      by (intros [] ?; reflexivity || discriminate).
    cbn [app filter is_card]. rewrite filter_app.
    rewrite (@filter_none _ is_card is_model_row (table_rows table)).
    + reflexivity.
    + apply table_rows_are_rows.
    + intros [] ?; reflexivity || discriminate.
  - cbn [filter is_row]. rewrite filter_app, Hcalls
      by (intros [] ?; reflexivity || discriminate).
    cbn [app filter is_row]. rewrite filter_app. cbn [filter is_row].
    rewrite app_nil_r, real_rows_count. reflexivity.
  - cbn [filter is_row]. rewrite filter_app, Hcalls
      by (intros [] ?; reflexivity || discriminate).
    cbn [app filter is_row]. rewrite filter_app. cbn [filter is_row].
    rewrite app_nil_r. apply fake_rows_count.
  - cbn [filter is_row]. rewrite !filter_app, !Hcalls
      by (intros [] ?; reflexivity || discriminate).
    cbn [app filter is_row]. rewrite !filter_app. cbn [filter is_row].
    rewrite !app_nil_r, rows_count. exact Hlen.
  - subst mv. rewrite <- final_label_spec. unfold verdict_of.
    destruct (final_label_binary (table_preds table)) as [E | E];
      rewrite E; cbn [Z.eqb Pos.eqb];
      split; intros; (reflexivity || discriminate).
Qed.

Lemma detect_rows_match_tally_witness :
  exists (shown : trace),
    detect toy_artifacts some_text [] = (Ok tt, shown)
    /\ filter is_card shown = [St_result_card FAKE 2 2]
    /\ List.length (filter (is_row REAL) shown) = 2%nat.
Proof.
  assert (Hnd : NoDup (Py.keys (models toy_artifacts))).
  { repeat constructor; cbn; intuition discriminate. }
  destruct (@detect_rows_match_tally docs toy_artifacts some_text toy_table
              eq_refl Hnd eq_refl)
    as (badge & ones & zeros & shown & Hrun & Hcard & Hreal & _).
  exists shown. split; [exact Hrun|].
  cbv in Hrun. injection Hrun as <-. split; reflexivity.
Defined.

(** The handler when some adapter call raises. *)
Lemma detect_raise {matrix : Type}
    (art : artifacts matrix) (news_text : Py.str) (t : trace) :
  forallb Py.isspace news_text = false ->
  answer_table (models art) (transform (tfidf art) [news_text]) = None ->
  exists (e : exn) (calls : trace),
    detect art news_text t
    = (Raise e, t ++ Tfidf_transform [news_text] :: calls)
    /\ forallb is_classifier_call calls = true
    /\ exists model, In model (Py.values (models art))
                     /\ fst (get_prediction model
                               (transform (tfidf art) [news_text]) [])
                        = Raise e.
Proof.
  intros Htext Hnone.
  destruct (answer_table_None _ _ Hnone)
    as (before & name & model & after & e & table & Hitems & Hb & He).
  exists e, (calls_of_all before (transform (tfidf art) [news_text])
             ++ calls_of model (transform (tfidf art) [news_text])).
  split; [|split].
  - unfold detect. rewrite (strip_keeps _ Htext). cbn [negb].
    unfold bind at 1. unfold emit at 1. unfold bind at 1.
    rewrite Hitems.
    rewrite (@predict_all_raise _ before after name model _ e table [] []
               _ Hb He).
    now rewrite <- app_assoc.
  - rewrite forallb_app, calls_of_all_classifier_calls.
    apply calls_are_classifier_calls.
  - exists model. split; [|exact He].
    rewrite Hitems. unfold Py.values. rewrite map_app.
    apply in_or_app. right. now left.
Qed.

(** X13. When the adapter call of some model raises, the detect handler
    ends with the exception of the first such model, after the
    vectorizer and the classifier calls made so far; no result card,
    no model row and no time stamp is shown. *)
Theorem detect_classifier_failure
    (matrix : Type) (art : artifacts matrix) (news_text : Py.str) :
  forallb Py.isspace news_text = false ->
  answer_table (models art) (transform (tfidf art) [news_text]) = None ->
  exists (e : exn) (calls : trace),
    detect art news_text [] = (Raise e, Tfidf_transform [news_text] :: calls)
    /\ forallb is_classifier_call calls = true.
Proof.
  intros Htext Hnone.
  destruct (@detect_raise _ art news_text [] Htext Hnone)
    as (e & calls & Hrun & Hc & _).
  now exists e, calls.
Qed.

Lemma detect_classifier_failure_witness :
  detect broken_artifacts some_text []
  = (Raise IndexError,
     [Tfidf_transform [some_text];
      Model_predict; Model_predict_proba; Model_predict]).
Proof.
  destruct (@detect_classifier_failure docs broken_artifacts some_text
              eq_refl eq_refl) as (e & calls & Hrun & _).
  rewrite Hrun. cbv in Hrun. now injection Hrun as <- <-.
Defined.

(** X14. A text with at least one character that is not whitespace is
    never rejected: the handler shows no warning, and it calls the
    vectorizer exactly once, on the text as it was typed, surrounding
    whitespace included. *)
Theorem detect_passes_raw_text
    (matrix : Type) (art : artifacts matrix) (news_text : Py.str) :
  forallb Py.isspace news_text = false ->
  NoDup (Py.keys (models art)) ->
  exists (r : result unit) (rest : trace),
    detect art news_text [] = (r, Tfidf_transform [news_text] :: rest)
    /\ existsb is_transform rest = false
    /\ existsb is_warning rest = false.
Proof.
  intros Htext Hnd.
  destruct (answer_table (models art) (transform (tfidf art) [news_text]))
    as [table|] eqn:Htable.
  - eexists _, _. split;
      [exact (@detect_run _ art news_text table [] Htext Hnd Htable)|].
    split; rewrite existsb_app;
      rewrite (@existsb_none _ _ is_classifier_call _
                 (calls_of_all_classifier_calls _ _))
        by (intros [] ?; reflexivity || discriminate);
      cbn [existsb orb is_transform is_warning]; rewrite existsb_app;
      rewrite (@existsb_none _ _ is_model_row _ (table_rows_are_rows table))
        by (intros [] ?; reflexivity || discriminate);
      reflexivity.
  - destruct (@detect_raise _ art news_text [] Htext Htable)
      as (e & calls & Hrun & Hcalls & _).
    exists (Raise e), calls. split; [exact Hrun|].
    split; apply (@existsb_none _ _ is_classifier_call _ Hcalls);
      intros [] ?; reflexivity || discriminate.
Qed.

Lemma detect_passes_raw_text_witness :
  exists (r : result unit) (rest : trace),
    detect toy_artifacts padded_text []
    = (r, Tfidf_transform [padded_text] :: rest)
    /\ existsb is_warning rest = false.
Proof.
  assert (Hnd : NoDup (Py.keys (models toy_artifacts))).
  { repeat constructor; cbn; intuition discriminate. }
  destruct (@detect_passes_raw_text docs toy_artifacts padded_text
              eq_refl Hnd) as (r & rest & Hrun & _ & Hwarn).
  now exists r, rest.
Defined.

(* ================================================================= *)
(** * The page *)

Section PageRuns.

Context {matrix : Type}.
Implicit Types (art : artifacts matrix).

(** The three ways through the page. *)
Lemma page_run art (news_text : Py.str) (detect_btn clear_btn : bool) :
  page art news_text detect_btn clear_btn []
  = if clear_btn then
      (Raise RerunException,
       [St_subheader "✍️ Paste News Text";
        St_text_area "Enter full news article/content";
        St_button "🔍 Detect News"; St_button "🧹 Clear";
        St_session_state_clear])
    else if detect_btn then
      (fst (detect art news_text []),
       [St_subheader "✍️ Paste News Text";
        St_text_area "Enter full news article/content";
        St_button "🔍 Detect News"; St_button "🧹 Clear";
        St_subheader "📌 Final Output"] ++ snd (detect art news_text []))
    else
      (Ok tt,
       [St_subheader "✍️ Paste News Text";
        St_text_area "Enter full news article/content";
        St_button "🔍 Detect News"; St_button "🧹 Clear";
        St_subheader "📌 Final Output";
        St_info "Paste the news content and click **Detect News**."]).
Proof.
  destruct clear_btn; [reflexivity|]. destruct detect_btn; [|reflexivity].
  unfold page, bind, emit, ret. cbn [app].
  now rewrite (framed_detect art news_text
                 [St_subheader "✍️ Paste News Text";
                  St_text_area "Enter full news article/content";
                  St_button "🔍 Detect News"; St_button "🧹 Clear";
                  St_subheader "📌 Final Output"]).
Qed.

Lemma detect_blank art (news_text : Py.str) :
  forallb Py.isspace news_text = true ->
  detect art news_text []
  = (Ok tt, [St_warning "⚠️ Please paste some news text."]).
Proof.
  intros H. unfold detect. now rewrite (strip_blank _ H).
Qed.

End PageRuns.

(** X15. A run of the page calls the vectorizer or a classifier exactly
    when the detect button is pressed, the clear button is not, and the
    text has a character that is not whitespace. *)
Theorem page_inference_iff
    (matrix : Type) (art : artifacts matrix)
    (news_text : Py.str) (detect_btn clear_btn : bool) :
  existsb is_inference (snd (page art news_text detect_btn clear_btn []))
  = detect_btn && negb clear_btn && negb (forallb Py.isspace news_text).
Proof.
  rewrite page_run.
  destruct clear_btn; [now rewrite andb_false_r|].
  destruct detect_btn; [|reflexivity].
  cbn [snd app existsb is_inference orb andb negb].
  destruct (forallb Py.isspace news_text) eqn:Htext.
  - now rewrite (detect_blank art _ Htext).
  - destruct (detect_transforms art _ Htext) as [rest ->]. reflexivity.
Qed.

(* ================================================================= *)
(** * The script *)

Section ScriptRuns.

Context {matrix : Type}.
Implicit Types (d : disk matrix) (t : list script_event).

Lemma load_error_vectorizer d :
  load_error d "tfidf.pkl"
  = match read_vectorizer d "tfidf.pkl" with
    | Loaded _ => None
    | Load_failed message => Some message
    end.
Proof. reflexivity. Qed.

Lemma load_error_classifier d (path : string) :
  In path (tl artifact_files) ->
  load_error d path
  = match read_classifier d path with
    | Loaded _ => None
    | Load_failed message => Some message
    end.
Proof.
  intros [<- | [<- | [<- | [<- | []]]]]; reflexivity.
Qed.

(** [load_artifacts] opens the files in order and gives up at the
    first one that fails. *)
Lemma load_artifacts_run d t :
  (exists art,
      load_artifacts d t = (Loaded art, t ++ map Joblib_load artifact_files)
      /\ Forall (fun path => load_error d path = None) artifact_files
      /\ Py.keys (models art) = model_names
      /\ read_vectorizer d "tfidf.pkl" = Loaded (tfidf art)
      /\ map (read_classifier d) (tl artifact_files)
         = map Loaded (Py.values (models art)))
  \/ (exists before failing after message,
         artifact_files = before ++ failing :: after
         /\ Forall (fun path => load_error d path = None) before
         /\ load_error d failing = Some message
         /\ load_artifacts d t
            = (Load_failed message,
               t ++ map Joblib_load (before ++ [failing]))).
Proof.
  pose proof (load_error_vectorizer d) as E0.
  pose proof (@load_error_classifier d "lr.pkl") as E1.
  pose proof (@load_error_classifier d "Decision.pkl") as E2.
  pose proof (@load_error_classifier d "random.pkl") as E3.
  pose proof (@load_error_classifier d "Boosting.pkl") as E4.
  cbn [tl artifact_files In] in E1, E2, E3, E4.
  specialize (E1 ltac:(tauto)). specialize (E2 ltac:(tauto)).
  specialize (E3 ltac:(tauto)). specialize (E4 ltac:(tauto)).
  unfold load_artifacts, and_then, joblib_load.
  destruct (read_vectorizer d "tfidf.pkl") as [v | m0] eqn:R0.
  2:{ right. exists [], "tfidf.pkl"%string, (tl artifact_files), m0.
      repeat split; auto. }
  destruct (read_classifier d "lr.pkl") as [c1 | m1] eqn:R1.
  2:{ right. exists ["tfidf.pkl"%string], "lr.pkl"%string,
        ["Decision.pkl"; "random.pkl"; "Boosting.pkl"]%string, m1.
      rewrite <- !app_assoc. repeat split; auto. }
  destruct (read_classifier d "Decision.pkl") as [c2 | m2] eqn:R2.
  2:{ right. exists ["tfidf.pkl"; "lr.pkl"]%string, "Decision.pkl"%string,
        ["random.pkl"; "Boosting.pkl"]%string, m2.
      rewrite <- !app_assoc. repeat split; auto. }
  destruct (read_classifier d "random.pkl") as [c3 | m3] eqn:R3.
  2:{ right. exists ["tfidf.pkl"; "lr.pkl"; "Decision.pkl"]%string,
        "random.pkl"%string, ["Boosting.pkl"%string], m3.
      rewrite <- !app_assoc. repeat split; auto. }
  destruct (read_classifier d "Boosting.pkl") as [c4 | m4] eqn:R4.
  2:{ right.
      exists ["tfidf.pkl"; "lr.pkl"; "Decision.pkl"; "random.pkl"]%string,
        "Boosting.pkl"%string, [], m4.
      rewrite <- !app_assoc. repeat split; auto. }
  left. eexists. split; [rewrite <- !app_assoc; reflexivity|].
  split; [unfold artifact_files; repeat constructor; assumption|].
  split; [reflexivity|]. split; [reflexivity|].
  cbn [tl artifact_files map models Py.values snd].
  now rewrite R1, R2, R3, R4.
Qed.

(** The first failing file of a list is determined by the list. *)
Lemma first_failure_unique (ok : string -> Prop)
    (b1 b2 a1 a2 : list string) (f1 f2 : string) :
  b1 ++ f1 :: a1 = b2 ++ f2 :: a2 ->
  Forall ok b1 -> ~ ok f1 -> Forall ok b2 -> ~ ok f2 ->
  b1 = b2 /\ f1 = f2.
Proof.
  revert b2. induction b1 as [|x b1 IH]; intros [|y b2]; cbn [app].
  - intros [= -> _] _ _ _ _. now split.
  - intros [= -> _] _ H1 H2 _. inversion_clear H2. contradiction.
  - intros [= -> _] H1 _ _ H2. inversion_clear H1. contradiction.
  - intros [= -> Heq] H1 Hf1 H2 Hf2.
    inversion_clear H1. inversion_clear H2.
    destruct (IH b2 Heq) as [-> ->]; auto.
Qed.

(** A cold run when some file fails to load. *)
Lemma load_artifacts_failure d t
    (before after : list string) (failing message : string) :
  artifact_files = before ++ failing :: after ->
  Forall (fun path => load_error d path = None) before ->
  load_error d failing = Some message ->
  load_artifacts d t
  = (Load_failed message, t ++ map Joblib_load (before ++ [failing])).
Proof.
  intros Hfiles Hbefore Hfail.
  destruct (load_artifacts_run d t)
    as [(art & _ & Hall & _)
       | (before' & failing' & after' & message' & Hfiles' & Hb' & Hf' & Hrun)].
  - exfalso. rewrite Hfiles in Hall. apply Forall_app in Hall as [_ Hall].
    inversion_clear Hall. congruence.
  - rewrite Hfiles in Hfiles'.
    destruct (@first_failure_unique (fun path => load_error d path = None)
                before before' after after' failing failing' Hfiles')
      as [<- <-]; try assumption; congruence.
Qed.

(** A cold run once the artifacts are loaded, and a warm run. *)
Lemma script_loaded d (c : cache matrix) (art : artifacts matrix)
    (c' : cache matrix) t
    (news_text : Py.str) (detect_btn clear_btn : bool) :
  cached_load_artifacts d c
    [St_set_page_config; St_style; St_title; St_blank]
  = (Loaded art, c', t) ->
  script d c news_text detect_btn clear_btn
  = match page art news_text detect_btn clear_btn [] with
    | (Ok _, p) =>
        (Completed, c', t ++ map On_page p ++ [St_blank; St_caption_tip])
    | (Raise RerunException, p) => (Rerun, c', t ++ map On_page p)
    | (Raise e, p) => (Uncaught e, c', t ++ map On_page p)
    end.
Proof. intros H. unfold script. now rewrite H. Qed.

Lemma tip_not_loaded (files : list string) :
  ~ In St_caption_tip (map Joblib_load files).
Proof. intros (f & Hf & _)%in_map_iff. discriminate. Qed.

Lemma tip_not_on_page (p : trace) : ~ In St_caption_tip (map On_page p).
Proof. intros (e & He & _)%in_map_iff. discriminate. Qed.


End ScriptRuns.

(** X16. On a first run, when one of the five pickle files fails to
    load, the files before it in the order of [load_artifacts] have
    been opened and the ones after it have not; the run shows the error
    banner and the text of that exception and stops: no widget of the
    page is shown, no footer, and nothing is cached. *)
Theorem script_load_failure
    (matrix : Type) (d : disk matrix)
    (before after : list string) (failing message : string)
    (news_text : Py.str) (detect_btn clear_btn : bool) :
  artifact_files = before ++ failing :: after ->
  Forall (fun path => load_error d path = None) before ->
  load_error d failing = Some message ->
  script d None news_text detect_btn clear_btn
  = (Stopped, None,
     [St_set_page_config; St_style; St_title; St_blank]
     ++ map Joblib_load before
     ++ [Joblib_load failing;
         St_error "❌ Error loading models/vectorizer.";
         St_code message]).
Proof.
  intros Hfiles Hbefore Hfail. unfold script, cached_load_artifacts.
  rewrite (@load_artifacts_failure _ d _ before after failing message
             Hfiles Hbefore Hfail).
  rewrite map_app, <- !app_assoc. reflexivity.
Qed.

Lemma script_load_failure_witness :
  script bad_disk None some_text true false
  = (Stopped, None,
     [St_set_page_config; St_style; St_title; St_blank;
      Joblib_load "tfidf.pkl"; Joblib_load "lr.pkl";
      Joblib_load "Decision.pkl"; Joblib_load "random.pkl";
      St_error "❌ Error loading models/vectorizer.";
      St_code "No such file or directory: random.pkl"]).
Proof.
  apply (@script_load_failure docs bad_disk
           ["tfidf.pkl"; "lr.pkl"; "Decision.pkl"]%string
           ["Boosting.pkl"%string] "random.pkl"%string
           "No such file or directory: random.pkl"%string
           some_text true false);
    [reflexivity | repeat constructor | reflexivity].
Defined.

(** X17. [load_artifacts] returns exactly when all five files load.
    It then has opened them in the order tfidf, lr, Decision, random,
    Boosting; the vectorizer is the content of the first file; and the
    dictionary has the four display names as keys, distinct and in the
    order Logistic Regression, Naive Bayes, SVM, Model 2, bound in that
    order to the contents of the other four files. *)
Theorem load_artifacts_success
    (matrix : Type) (d : disk matrix) (t : list script_event) :
  ((exists art t', load_artifacts d t = (Loaded art, t'))
   <-> Forall (fun path => load_error d path = None) artifact_files)
  /\ forall art t',
       load_artifacts d t = (Loaded art, t') ->
       t' = t ++ map Joblib_load artifact_files
       /\ Py.keys (models art) = model_names
       /\ NoDup (Py.keys (models art))
       /\ read_vectorizer d "tfidf.pkl" = Loaded (tfidf art)
       /\ map (read_classifier d)
            ["lr.pkl"; "Decision.pkl"; "random.pkl"; "Boosting.pkl"]%string
          = map Loaded (Py.values (models art)).
Proof.
  destruct (load_artifacts_run d t)
    as [(art & Hrun & Hall & Hkeys & Hvec & Hclf)
       | (before & failing & after & message & Hfiles & Hb & Hf & Hrun)].
  - split; [split; [intros _; exact Hall | intros _; eauto]|].
    intros art' t' Hrun'. rewrite Hrun in Hrun'.
    injection Hrun' as <- <-.
    split; [reflexivity|]. split; [exact Hkeys|].
    split; [|split; [exact Hvec | exact Hclf]].
    rewrite Hkeys. repeat constructor; cbn; intuition discriminate.
  - split.
    + split.
      * intros (art & t' & Hrun'). rewrite Hrun in Hrun'. discriminate.
      * intros Hall. exfalso. rewrite Hfiles in Hall.
        apply Forall_app in Hall as [_ Hall]. inversion_clear Hall.
        congruence.
    + intros art t' Hrun'. rewrite Hrun in Hrun'. discriminate.
Qed.

Lemma load_artifacts_success_witness :
  exists art,
    load_artifacts good_disk []
    = (Loaded art, map Joblib_load artifact_files)
    /\ Py.keys (models art) = model_names.
Proof.
  destruct (@load_artifacts_success docs good_disk []) as [[_ Hex] Hshape].
  destruct Hex as (art & t' & Hrun).
  { repeat constructor. }
  destruct (Hshape art t' Hrun) as (-> & Hkeys & _).
  now exists art.
Defined.


(** X19. The footer tip is shown exactly when the run reaches the last
    line of the script; a run ended by a failed load, by the clear
    button or by an exception shows no footer. *)
Theorem script_footer_iff
    (matrix : Type) (d : disk matrix) (c : cache matrix)
    (news_text : Py.str) (detect_btn clear_btn : bool) :
  In St_caption_tip (snd (script d c news_text detect_btn clear_btn))
  <-> fst (fst (script d c news_text detect_btn clear_btn)) = Completed.
Proof.
  assert (Ht0 : ~ In St_caption_tip
                  [St_set_page_config; St_style; St_title; St_blank])
    by (cbn; intuition discriminate).
  assert (Hloaded : forall art c' files,
             cached_load_artifacts d c
               [St_set_page_config; St_style; St_title; St_blank]
             = (Loaded art, c',
                [St_set_page_config; St_style; St_title; St_blank]
                ++ map Joblib_load files) ->
             In St_caption_tip
               (snd (script d c news_text detect_btn clear_btn))
             <-> fst (fst (script d c news_text detect_btn clear_btn))
                 = Completed).
  { intros art c' files Hload.
    rewrite (@script_loaded _ d c art c' _ news_text detect_btn clear_btn
               Hload).
    destruct (page art news_text detect_btn clear_btn []) as [[u | e] p].
    - cbn [fst snd]. split; [reflexivity|]. intros _.
      rewrite !in_app_iff. right. right. cbn. tauto.
    - assert (Hno : ~ In St_caption_tip
                      (([St_set_page_config; St_style; St_title; St_blank]
                        ++ map Joblib_load files) ++ map On_page p)).
      { rewrite !in_app_iff. intros [[H | H] | H];
          [exact (Ht0 H) | exact (tip_not_loaded _ H)
          | exact (tip_not_on_page _ H)]. }
      destruct e; cbn [fst snd]; (split; [tauto | discriminate]). }
  destruct c as [art|].
  - apply (Hloaded art (Some art) []). cbn. reflexivity.
  - destruct (load_artifacts_run d
                [St_set_page_config; St_style; St_title; St_blank])
      as [(art & Hrun & _)
         | (before & failing & after & message & _ & _ & _ & Hrun)].
    + apply (Hloaded art (Some art) artifact_files).
      unfold cached_load_artifacts. now rewrite Hrun.
    + unfold script, cached_load_artifacts. rewrite Hrun. cbn [fst snd].
      split; [|discriminate].
      rewrite !in_app_iff. intros [[H | H] | H]; exfalso;
        [exact (Ht0 H) | exact (tip_not_loaded _ H) |].
      cbn in H. intuition discriminate.
Qed.


